(** * go-envparser: the struct metadata parser (internal/parser/type.go)

    A shallow embedding of the Go package [parser] and of the parts of the
    Go standard library it calls, followed by the properties of the
    extraction pipeline (load, locate, normalise).

    Go strings are byte sequences; they are modelled by [string], whose
    characters are the 256 byte values. *)

From Stdlib Require Import Bool Arith Lia List Ascii String.
Import ListNotations.
Open Scope list_scope.
Open Scope string_scope.

Set Implicit Arguments.

(* ================================================================== *)
(** ** Package go/ast

    The syntax tree, restricted to the node kinds listed below.  Comment
    groups are left out: they are leaves of the tree.  A field of static
    type [*ast.Ident] or [*ast.BasicLit] is held by its text; a field that
    may be nil is an [option]. *)

Module ast.

(** [ast.Field]: one entry of a field list. *)
Record FieldOf (N : Type) : Type := mkField {
  Names : list string;      (* field names; empty for an embedded field *)
  Type_ : N;                (* field type *)
  Tag : option string       (* field tag: the literal as written *)
}.

(** [ast.File] *)
Record FileOf (N : Type) : Type := mkFile {
  Name : string;            (* package name *)
  Decls : list N            (* top-level declarations *)
}.

(** [GenDecl.Tok] *)
Inductive Token : Type := IMPORT | CONST | TYPE | VAR.

#[local] Unset Elimination Schemes.

(** [ast.Node]: the constructor is the dynamic type of the node. *)
Inductive Node : Type :=
(* expressions and types *)
| Ident (Name : string)
| BasicLit (Value : string)
| FuncLit (Params : list (FieldOf Node))
          (Results : option (list (FieldOf Node))) (Body : list Node)
| ParenExpr (X : Node)
| SelectorExpr (X : Node) (Sel : string)
| CallExpr (Fun : Node) (Args : list Node)
| StarExpr (X : Node)
| ArrayType (Len : option Node) (Elt : Node)
| StructType (Fields : list (FieldOf Node))
| FuncType (Params : list (FieldOf Node))
           (Results : option (list (FieldOf Node)))
| InterfaceType (Methods : list (FieldOf Node))
| MapType (Key Value : Node)
(* field lists *)
| FieldNode (f : FieldOf Node)
| FieldList (List : list (FieldOf Node))
(* statements *)
| ExprStmt (X : Node)
| DeclStmt (Decl : Node)
| ReturnStmt (Results : list Node)
| BlockStmt (List : list Node)
(* specs *)
| ImportSpec (Name : option string) (Path : string)
| ValueSpec (Names : list string) (Type_ : option Node) (Values : list Node)
| TypeSpec (Name : string) (Assign : bool) (Type_ : Node)
(* declarations *)
| GenDecl (Tok : Token) (Specs : list Node)
| FuncDecl (Recv : option (list (FieldOf Node))) (Name : string)
           (Params : list (FieldOf Node))
           (Results : option (list (FieldOf Node)))
           (Body : option (list Node))
(* files *)
| FileNode (f : FileOf Node).

Definition Field : Type := FieldOf Node.
Definition File : Type := FileOf Node.

Definition optNode (o : option Node) : list Node :=
  match o with Some n => [n] | None => [] end.

Definition optIdent (o : option string) : list Node :=
  match o with Some x => [Ident x] | None => [] end.

Definition optLit (o : option string) : list Node :=
  match o with Some x => [BasicLit x] | None => [] end.

Definition optFieldList (o : option (list Field)) : list Node :=
  match o with Some l => [FieldList l] | None => [] end.

Definition optBlock (o : option (list Node)) : list Node :=
  match o with Some l => [BlockStmt l] | None => [] end.

(** The children of a node, in the order [ast.Walk] goes through them. *)
Definition children (n : Node) : list Node :=
  (match n with
  | Ident _ | BasicLit _ => []
  | FuncLit ps rs body => [FuncType ps rs; BlockStmt body]
  | ParenExpr x => [x]
  | SelectorExpr x sel => [x; Ident sel]
  | CallExpr f args => f :: args
  | StarExpr x => [x]
  | ArrayType len elt => optNode len ++ [elt]
  | StructType fields => [FieldList fields]
  | FuncType ps rs => FieldList ps :: optFieldList rs
  | InterfaceType methods => [FieldList methods]
  | MapType k v => [k; v]
  | FieldNode f => map Ident (Names f) ++ Type_ f :: optLit (Tag f)
  | FieldList l => map FieldNode l
  | ExprStmt x => [x]
  | DeclStmt d => [d]
  | ReturnStmt rs => rs
  | BlockStmt l => l
  | ImportSpec name path => optIdent name ++ [BasicLit path]
  | ValueSpec names ty vals => map Ident names ++ optNode ty ++ vals
  | TypeSpec name _ ty => [Ident name; ty]
  | GenDecl _ specs => specs
  | FuncDecl recv name ps rs body =>
      optFieldList recv ++ Ident name :: FuncType ps rs :: optBlock body
  | FileNode f => Ident (Name f) :: Decls f
  end)%list.

Section Walk.
Context {S : Type}.

(** The visitor of [ast.Inspect]: the callback [f], called on a node
    or on nil, returns whether to go on and the state it leaves. *)
Variable v : option Node -> S -> bool * S.

(** [Visit(node)]; if the visitor goes on, the children and then
    [Visit(nil)]. *)
Definition visiting (node : Node) (kids : S -> S) (s : S) : S :=
  let (go, s1) := v (Some node) s in
  if go then snd (v None (kids s1)) else s1.

(** [ast.Walk], by cases on the node kind as in go/ast/walk.go. *)
Fixpoint Walk (node : Node) (s : S) {struct node} : S :=
  let walkList := fun (l : list Node) (s : S) =>
    fold_left (fun s n => Walk n s) l s in
  let walkOpt := fun (o : option Node) (s : S) =>
    match o with Some n => Walk n s | None => s end in
  let walkIdent := fun (x : string) (s : S) =>
    visiting (Ident x) (fun s => s) s in
  let walkIdentList := fun (l : list string) (s : S) =>
    fold_left (fun s x => walkIdent x s) l s in
  let walkLit := fun (x : string) (s : S) =>
    visiting (BasicLit x) (fun s => s) s in
  let walkField := fun (f : FieldOf Node) (s : S) =>
    visiting (FieldNode f) (fun s =>
      let s := walkIdentList (Names f) s in
      let s := Walk (Type_ f) s in
      match Tag f with Some t => walkLit t s | None => s end) s in
  let walkFieldList := fun (l : list (FieldOf Node)) (s : S) =>
    visiting (FieldList l) (fun s =>
      fold_left (fun s f => walkField f s) l s) s in
  let walkOptFieldList := fun (o : option (list (FieldOf Node))) (s : S) =>
    match o with Some l => walkFieldList l s | None => s end in
  let walkFuncType := fun ps rs (s : S) =>
    visiting (FuncType ps rs) (fun s =>
      walkOptFieldList rs (walkFieldList ps s)) s in
  let walkBlock := fun (l : list Node) (s : S) =>
    visiting (BlockStmt l) (walkList l) s in
  visiting node (fun s =>
    match node with
    | Ident _ | BasicLit _ => s
    | FuncLit ps rs body => walkBlock body (walkFuncType ps rs s)
    | ParenExpr x => Walk x s
    | SelectorExpr x sel => walkIdent sel (Walk x s)
    | CallExpr f args => walkList args (Walk f s)
    | StarExpr x => Walk x s
    | ArrayType len elt => Walk elt (walkOpt len s)
    | StructType fields => walkFieldList fields s
    | FuncType ps rs => walkOptFieldList rs (walkFieldList ps s)
    | InterfaceType methods => walkFieldList methods s
    | MapType k v => Walk v (Walk k s)
    | FieldNode f =>
        let s := walkIdentList (Names f) s in
        let s := Walk (Type_ f) s in
        match Tag f with Some t => walkLit t s | None => s end
    | FieldList l => fold_left (fun s f => walkField f s) l s
    | ExprStmt x => Walk x s
    | DeclStmt d => Walk d s
    | ReturnStmt rs => walkList rs s
    | BlockStmt l => walkList l s
    | ImportSpec name path =>
        walkLit path
          (match name with Some x => walkIdent x s | None => s end)
    | ValueSpec names ty vals =>
        walkList vals (walkOpt ty (walkIdentList names s))
    | TypeSpec name _ ty => Walk ty (walkIdent name s)
    | GenDecl _ specs => walkList specs s
    | FuncDecl recv name ps rs body =>
        let s := walkOptFieldList recv s in
        let s := walkIdent name s in
        let s := walkFuncType ps rs s in
        match body with Some b => walkBlock b s | None => s end
    | FileNode f => walkList (Decls f) (walkIdent (Name f) s)
    end) s.

Definition walkAll (l : list Node) (s : S) : S :=
  fold_left (fun s n => Walk n s) l s.

End Walk.

Definition TypesOk (P : Node -> Prop) (l : list Field) : Prop :=
  Forall (fun f => P (Type_ f)) l.

Definition OptTypesOk (P : Node -> Prop) (o : option (list Field)) : Prop :=
  match o with Some l => TypesOk P l | None => True end.

(** A visitor that always goes on and keeps the nodes it is called with. *)
Definition collect (o : option Node) (acc : list Node) : bool * list Node :=
  (true, match o with Some x => (acc ++ [x])%list | None => acc end).

(** The nodes of a tree, in the order [Walk] meets them. *)
Definition nodes (n : Node) : list Node := Walk collect n [].

(** [ast.Inspect(node, f)] *)
Definition Inspect {S : Type} (node : Node)
           (f : option Node -> S -> bool * S) (s : S) : S :=
  Walk f node s.

End ast.

(* ================================================================== *)
(** ** Package go/types: [ExprString] *)

Module types.
Import ast.

Definition identList (l : list string) : string := String.concat ", " l.

(** [types.ExprString(x)]: the expression as written in the source.
    A node that is not an expression has no rendering in Go (the static
    type [ast.Expr] excludes it); it falls in the last case. *)
Fixpoint ExprString (x : Node) {struct x} : string :=
  let named := fun (f : FieldOf Node) =>
    match Names f with [] => "" | _ :: _ => " " end in
  (* writeFieldList(buf, list, sep, false) *)
  let fieldList := fun (l : list (FieldOf Node)) (sep : string) =>
    String.concat sep
      (map (fun f => identList (Names f) ++ named f ++ ExprString (Type_ f)) l) in
  (* writeSigExpr *)
  let sigExpr := fun (ps : list (FieldOf Node))
                     (rs : option (list (FieldOf Node))) =>
    "(" ++ fieldList ps ", " ++ ")" ++
    match rs with
    | None | Some [] => ""
    | Some [r] =>
        match Names r with
        | [] => " " ++ ExprString (Type_ r)
        | _ :: _ => " (" ++ fieldList [r] ", " ++ ")"
        end
    | Some l => " (" ++ fieldList l ", " ++ ")"
    end in
  (* writeFieldList(buf, list, "; ", true): a method is written by its
     signature alone *)
  let methodList := fun (l : list (FieldOf Node)) =>
    String.concat "; "
      (map (fun f =>
              identList (Names f) ++
              match Type_ f with
              | FuncType ps rs => sigExpr ps rs
              | _ => named f ++ ExprString (Type_ f)
              end) l) in
  match x with
  | Ident name => name
  | BasicLit value => value
  | FuncLit ps rs _ => "(func" ++ sigExpr ps rs ++ " literal)"
  | ParenExpr x => "(" ++ ExprString x ++ ")"
  | SelectorExpr x sel => ExprString x ++ "." ++ sel
  | CallExpr f args =>
      ExprString f ++ "(" ++ String.concat ", " (map ExprString args) ++ ")"
  | StarExpr x => "*" ++ ExprString x
  | ArrayType len elt =>
      "[" ++ match len with Some n => ExprString n | None => "" end ++ "]"
          ++ ExprString elt
  | StructType fields => "struct{" ++ fieldList fields "; " ++ "}"
  | FuncType ps rs => "func" ++ sigExpr ps rs
  | InterfaceType methods => "interface{" ++ methodList methods ++ "}"
  | MapType k v => "map[" ++ ExprString k ++ "]" ++ ExprString v
  | _ => "(bad expr)"
  end.

End types.

(* ================================================================== *)
(** ** What the embedding takes from outside *)

(** Go's [error] values of this program. *)
Inductive error : Type :=
| IOError (msg : string)
| SyntaxError (msg : string).

Inductive result (A : Type) : Type :=
| Ok (a : A)
| Err (e : error).

Arguments Ok {A} a.
Arguments Err {A} e.

(** The file system and the parts of the standard library that are not
    computed here. *)
Class Library : Type := {
  (** [ioutil.ReadFile(filename)] *)
  ReadFile : string -> result string;
  (** [parser.ParseFile(fset, filename, src, parser.ParseComments)] *)
  ParseFile : string -> string -> result ast.File;
  (** [strconv.Unquote] on a literal with an escape sequence, a line feed,
      a byte outside ASCII, or not of the double-quoted form *)
  UnquoteEscaped : string -> option string;
  (** [strings.Map(unicode.ToUpper, s)], which [strings.ToUpper] calls on
      a string with a byte outside ASCII *)
  MapToUpper : string -> string
}.

(* ================================================================== *)
(** ** Package strings *)

Module strings.

(** Drop the leading bytes that satisfy [p]. *)
Fixpoint dropWhile (p : ascii -> bool) (s : string) : string :=
  match s with
  | String c s' => if p c then dropWhile p s' else s
  | EmptyString => s
  end.

Fixpoint rev_append (s acc : string) : string :=
  match s with
  | String c s' => rev_append s' (String c acc)
  | EmptyString => acc
  end.

Definition rev (s : string) : string := rev_append s "".

Fixpoint containsByte (cutset : string) (c : ascii) : bool :=
  match cutset with
  | String d cutset' => Ascii.eqb c d || containsByte cutset' c
  | EmptyString => false
  end.

(** [strings.TrimLeft(s, cutset)] for a cutset of ASCII bytes, where Go
    works byte by byte (trimLeftByte, trimLeftASCII).  The cutsets of
    this program are "*", "[]" and the back quote. *)
Definition TrimLeft (s cutset : string) : string :=
  dropWhile (containsByte cutset) s.

Definition TrimRight (s cutset : string) : string :=
  rev (dropWhile (containsByte cutset) (rev s)).

(** [strings.Trim(s, cutset)], ASCII cutset. *)
Definition Trim (s cutset : string) : string :=
  TrimLeft (TrimRight s cutset) cutset.

(** The six ASCII white space bytes: tab, line feed, vertical tab, form
    feed, carriage return, space. *)
Definition asciiSpace (c : ascii) : bool :=
  match c with
  | "009" | "010" | "011" | "012" | "013" | " " => true
  | _ => false
  end%char.

(** UTF-8 encodings of the other white space code points of
    [unicode.IsSpace]: U+0085 and U+00A0 (two bytes) ... *)
Definition space2 (a b : ascii) : bool :=
  (Ascii.eqb a "194" && (Ascii.eqb b "133" || Ascii.eqb b "160"))%char.

(** ... and U+1680, U+2000..U+200A, U+2028, U+2029, U+202F, U+205F,
    U+3000 (three bytes). *)
Definition space3 (a b c : ascii) : bool :=
  let n := nat_of_ascii c in
  (   (Ascii.eqb a "225" && Ascii.eqb b "154" && Ascii.eqb c "128")
   || (Ascii.eqb a "226" && Ascii.eqb b "128" &&
         ((Nat.leb 128 n && Nat.leb n 138) || Ascii.eqb c "168" ||
          Ascii.eqb c "169" || Ascii.eqb c "175"))
   || (Ascii.eqb a "226" && Ascii.eqb b "129" && Ascii.eqb c "159")
   || (Ascii.eqb a "227" && Ascii.eqb b "128" && Ascii.eqb c "128"))%char.

(** Drop leading white space, one code point at a time.  [m2] and [m3]
    recognise the multi-byte code points from their bytes in the order
    they are met, so that the same loop serves from the right on the
    reversed string. *)
Fixpoint dropSpace (m2 : ascii -> ascii -> bool)
         (m3 : ascii -> ascii -> ascii -> bool) (s : string) : string :=
  match s with
  | String a s1 =>
      if asciiSpace a then dropSpace m2 m3 s1 else
      match s1 with
      | String b s2 =>
          if m2 a b then dropSpace m2 m3 s2 else
          match s2 with
          | String c s3 => if m3 a b c then dropSpace m2 m3 s3 else s
          | EmptyString => s
          end
      | EmptyString => s
      end
  | EmptyString => s
  end.

Definition trimLeftSpace (s : string) : string := dropSpace space2 space3 s.

Definition trimRightSpace (s : string) : string :=
  rev (dropSpace (fun a b => space2 b a) (fun a b c => space3 c b a) (rev s)).

(** [strings.TrimSpace(s)]: [TrimFunc(s, unicode.IsSpace)]. *)
Definition TrimSpace (s : string) : string :=
  trimRightSpace (trimLeftSpace s).

Definition isASCII (s : string) : bool :=
  forallb (fun c => Nat.ltb (nat_of_ascii c) 128) (list_ascii_of_string s).

Definition upperByte (c : ascii) : ascii :=
  let n := nat_of_ascii c in
  if Nat.leb 97 n && Nat.leb n 122 then ascii_of_nat (n - 32) else c.

Fixpoint mapBytes (f : ascii -> ascii) (s : string) : string :=
  match s with
  | String c s' => String (f c) (mapBytes f s')
  | EmptyString => EmptyString
  end.

(** [strings.ToUpper(s)]: byte by byte on an ASCII string. *)
Definition ToUpper `{Library} (s : string) : string :=
  if isASCII s then mapBytes upperByte s else MapToUpper s.

End strings.

(* ================================================================== *)
(** ** Packages strconv and reflect *)

Module strconv.

Definition plainByte (c : ascii) : bool :=
  Nat.ltb (nat_of_ascii c) 128 &&
  negb (Ascii.eqb c "092" || Ascii.eqb c "034" || Ascii.eqb c "010")%char.

Definition plain (s : string) : bool :=
  forallb plainByte (list_ascii_of_string s).

(** The text before the closing quote, when [s] is bytes that are all
    [plainByte] and a double quote. *)
Fixpoint plainBody (s : string) : option string :=
  match s with
  | String c EmptyString => if Ascii.eqb c "034" then Some "" else None
  | String c s' =>
      if plainByte c
      then match plainBody s' with
           | Some r => Some (String c r)
           | None => None
           end
      else None
  | EmptyString => None
  end.

(** [strconv.Unquote(s)]: the quotes are removed from a double-quoted
    literal of plain ASCII bytes (the path without allocation); anything
    else is the library's. *)
Definition Unquote `{Library} (s : string) : option string :=
  match s with
  | String c s' =>
      if Ascii.eqb c "034"
      then match plainBody s' with
           | Some r => Some r
           | None => UnquoteEscaped s
           end
      else UnquoteEscaped s
  | EmptyString => UnquoteEscaped s
  end.

End strconv.

Module reflect.

(** A byte of a key: above the space and none of colon, double quote and
    DEL. *)
Definition nameByte (c : ascii) : bool :=
  (Nat.ltb 32 (nat_of_ascii c) && negb (Ascii.eqb c ":")
   && negb (Ascii.eqb c "034") && negb (Ascii.eqb c "127"))%char.

Definition nameBytes (s : string) : bool :=
  forallb nameByte (list_ascii_of_string s).

(** [reflect.StructTag.Lookup(key)]: the tag is a sequence of
    [name:"value"] pairs separated by spaces.  The two index loops of the
    Go code are [scanName], which runs to the colon and wants a double
    quote after it, and [scanValue], which runs to the closing quote and
    steps over a backslash together with the byte after it.  A pair that
    is not well formed ends the search. *)
Fixpoint Lookup `{Library} (tag key : string) {struct tag} : option string :=
  match tag with
  | EmptyString => None
  | String c rest =>
      if Ascii.eqb c " " then Lookup rest key     (* skip leading space *)
      else if nameByte c then scanName key (String c "") rest
      else None
  end
with scanName `{Library} (key name s : string) {struct s} : option string :=
  match s with
  | EmptyString => None
  | String c s' =>
      if nameByte c then scanName key (name ++ String c "") s'
      else if negb (Ascii.eqb c ":") then None
      else
        match s' with
        | String q s'' =>
            if negb (Ascii.eqb q "034") then None
            else scanValue key name (String q "") s''
        | EmptyString => None
        end
  end
with scanValue `{Library} (key name qvalue s : string) {struct s}
  : option string :=
  match s with
  | EmptyString => None
  | String d s1 =>
      if Ascii.eqb d "034" then
        if String.eqb key name
        then strconv.Unquote (qvalue ++ String d "")
        else Lookup s1 key
      else if Ascii.eqb d "092" then
        match s1 with
        | String e s2 => scanValue key name (qvalue ++ String d (String e "")) s2
        | EmptyString => None
        end
      else scanValue key name (qvalue ++ String d "") s1
  end.

End reflect.

(* ================================================================== *)
(** ** Package parser (internal/parser/type.go) *)

Module parser.

(** [Field] encapsulates the struct field metadata. *)
Module Field.
Record t : Type := mk {
  Name : string;
  Type_ : string;
  EnvTag : string;
  IsPointer : bool;
  IsArray : bool
}.
End Field.

(** [Type] is the type definition struct.  A slice is a list; the nil
    slice is the empty list. *)
Module Type_.
Record t : Type := mk {
  FileName : string;
  Name : string;
  Fields : list Field.t;
  Package : string
}.

Definition setFileName (x : t) (fileName : string) : t :=
  mk fileName (Name x) (Fields x) (Package x).

Definition setPackage (x : t) (package : string) : t :=
  mk (FileName x) (Name x) (Fields x) package.

Definition setFields (x : t) (fields : list Field.t) : t :=
  mk (FileName x) (Name x) fields (Package x).
End Type_.

(** [NewType] returns a new instance of [Type] with given name. *)
Definition NewType (name : string) : Type_.t :=
  Type_.mk "" name [] "".

(** [getStruct] returns the struct metadata if the given node is a
    struct: the [Fields.List] of the [*ast.StructType], or nil. *)
Definition getStruct (nodeType : ast.Node) : option (list ast.Field) :=
  match nodeType with
  | ast.StructType node => Some node
  | _ => None
  end.

(** [isPointer] checks if a given type is a pointer or not. *)
Definition isPointer (typeName : string) : bool :=
  Nat.ltb 0 (String.length typeName) &&
  match String.get 0 typeName with
  | Some c => Ascii.eqb c "*"
  | None => false
  end.

(** [isArray] checks is a given type is an array or not. *)
Definition isArray (typeName : string) : bool :=
  Nat.ltb 2 (String.length typeName) &&
  String.eqb (String.substring 0 2 typeName) "[]".

(** [cleanTypeStr] will strip all unwanted space and other characters
    to return the type name. *)
Definition cleanTypeStr (typ : string) : string :=
  let typ := strings.TrimSpace typ in
  let typ := strings.TrimLeft typ "*" in
  let typ := strings.TrimLeft typ "[]" in
  typ.

Section WithLibrary.
Context `{Library}.

(** [getEnvSourceTag] says what is the env variable to be used to
    fetch the data. *)
Definition getEnvSourceTag (tags fieldName : string) : string :=
  match reflect.Lookup tags "env" with
  | None => strings.ToUpper fieldName
  | Some tag => tag
  end.

(** The body of the loop of [getFields]: the records of one entry of
    the field list are appended to [fields]. *)
Definition appendFields (fields : list Field.t) (field : ast.Field)
  : list Field.t :=
  let tags :=
    match ast.Tag field with
    | Some value => strings.Trim value "`"
    | None => ""
    end in
  match ast.Names field with
  | [] =>
      let fieldType := types.ExprString (ast.Type_ field) in
      (fields ++ [
         {| Field.Name := "";
            Field.Type_ := cleanTypeStr fieldType;
            Field.EnvTag := getEnvSourceTag tags fieldType;
            Field.IsPointer := isPointer fieldType;
            Field.IsArray := isArray fieldType |} ])%list
  | names =>
      fold_left
        (fun (fields : list Field.t) (fieldName : string) =>
           let fieldType := types.ExprString (ast.Type_ field) in
           (fields ++ [
              {| Field.Name := fieldName;
                 Field.Type_ := cleanTypeStr fieldType;
                 Field.IsPointer := isPointer fieldType;
                 Field.IsArray := isArray fieldType;
                 Field.EnvTag := getEnvSourceTag tags fieldName |} ])%list)
        names fields
  end.

(** [getFields] transforms the field metadata returned by go ast to
    the template's format. *)
Definition getFields (node : list ast.Field) : list Field.t :=
  fold_left appendFields node [].

(** The function literal that [Parse] hands to [ast.Inspect]; it
    captures the receiver [t], which is the state here, and the
    file [f]. *)
Definition inspector (f : ast.File) (node : option ast.Node)
           (t : Type_.t) : bool * Type_.t :=
  match node with
  | Some (ast.TypeSpec name _ type) =>
      match getStruct type with
      | Some node =>
          (* Fetch info for only the given struct *)
          if String.eqb (Type_.Name t) name then
            let t := Type_.setPackage t (ast.Name f) in
            let t := Type_.setFields t (getFields node) in
            (false, t)
          else (true, t)
      | None => (true, t)
      end
  | _ => (true, t)
  end.

(** [Parse] parses [Type] metadata from given file using go parser and
    ast.  The result is the receiver after the call and the error
    returned ([None] for nil). *)
Definition Parse (t : Type_.t) (fileName : string)
  : Type_.t * option error :=
  let t := Type_.setFileName t fileName in
  match ReadFile fileName with
  | Err err => (t, Some err)
  | Ok content =>
      match ParseFile fileName content with
      | Err err => (t, Some err)
      | Ok f =>
          (* Look up the AST *)
          let t := ast.Inspect (ast.FileNode f) (inspector f) t in
          (t, None)
      end
  end.

End WithLibrary.

End parser.

(* ================================================================== *)
(** ** Vocabulary of the properties *)

Module locate.
Import ast.

(** [x] is a type declaration of a struct type under the name [name]:
    the nodes at which the function literal of [Parse] fills the
    receiver. *)
Definition structSpec (name : string) (x : Node) : bool :=
  match x with
  | TypeSpec n _ (StructType _) => String.eqb name n
  | _ => false
  end.

(** Some node of the tree, at any depth, declares a struct [name]. *)
Definition declaresStruct (name : string) (n : Node) : bool :=
  existsb (structSpec name) (nodes n).

(** Some top-level declaration of the file declares a struct [name]. *)
Definition declaresTopLevel (name : string) (f : File) : bool :=
  existsb (fun d =>
             match d with
             | GenDecl _ specs => existsb (structSpec name) specs
             | _ => false
             end) (Decls f).

(** What a traversal leaves in the receiver: nothing, or a package name
    and a field sequence. *)
Definition fill (r : option (string * list parser.Field.t))
           (t : parser.Type_.t) : parser.Type_.t :=
  match r with
  | Some (package, fields) =>
      parser.Type_.setFields (parser.Type_.setPackage t package) fields
  | None => t
  end.

(** What a traversal of the trees [l] may leave, [r], for the file [f]
    and the name [name]: nothing when no node declares the struct,
    otherwise the package of the file and the fields of a struct that
    some node declares under the name. *)
Definition Located `{Library} (f : File) (name : string) (l : list Node)
           (r : option (string * list parser.Field.t)) : Prop :=
  match r with
  | None => existsb (structSpec name) (flat_map nodes l) = false
  | Some (package, fields) =>
      package = Name f /\
      exists assign st,
        In (TypeSpec name assign (StructType st)) (flat_map nodes l) /\
        fields = parser.getFields st
  end.

End locate.

(* ================================================================== *)
(** ** Vocabulary of the further properties *)

Module vocab.

(** The text of one pair of a tag: the key, a colon and the value between
    double quotes. *)
Definition pairText (kv : string * string) : string :=
  fst kv ++ String ":" (String "034" (snd kv ++ String "034" "")).

(** The text of a tag: its pairs, with one space between two pairs. *)
Fixpoint render (pairs : list (string * string)) : string :=
  match pairs with
  | [] => ""
  | [kv] => pairText kv
  | kv :: pairs' => pairText kv ++ String " " (render pairs')
  end.

(** A key is not empty and made of key bytes; a value is made of plain
    bytes. *)
Definition wellFormed (kv : string * string) : bool :=
  negb (String.eqb (fst kv) "") && reflect.nameBytes (fst kv)
  && strconv.plain (snd kv).

(** The value of the first pair under [key]. *)
Fixpoint first (key : string) (pairs : list (string * string)) : option string :=
  match pairs with
  | [] => None
  | (k, v) :: pairs' => if String.eqb key k then Some v else first key pairs'
  end.

(** An ASCII lower-case letter. *)
Definition lowerByte (c : ascii) : bool :=
  Nat.leb 97 (nat_of_ascii c) && Nat.leb (nat_of_ascii c) 122.

(** The names under which the records of a field entry go: its names, or
    the empty name of an embedded field. *)
Definition recordNames (field : ast.Field) : list string :=
  match ast.Names field with
  | [] => [""]
  | names => names
  end.

(** [p] holds of the first byte of [s]. *)
Definition headIs (p : ascii -> bool) (s : string) : bool :=
  match s with
  | String c _ => p c
  | EmptyString => false
  end.

(** A type that is written with a keyword or a parenthesis first: a
    map, function, struct or interface type, a parenthesised type, a
    function literal. *)
Definition keywordType (x : ast.Node) : bool :=
  match x with
  | ast.MapType _ _ | ast.FuncType _ _ | ast.StructType _
  | ast.InterfaceType _ | ast.ParenExpr _ | ast.FuncLit _ _ _ => true
  | _ => false
  end.


End vocab.

(* ================================================================== *)
(** ** Sample inputs *)

Module samples.
Import ast.

Definition dq : string := String "034" "".
Definition nl : string := String "010" "".

(** [type Config struct { Host string `env:"HOST_NAME"`; Port *int;
    Tags []string }] *)
Definition configFields : list Field :=
  [ mkField ["Host"] (Ident "string")
      (Some ("`env:" ++ dq ++ "HOST_NAME" ++ dq ++ "`"));
    mkField ["Port"] (StarExpr (Ident "int")) None;
    mkField ["Tags"] (ArrayType None (Ident "string")) None ].

Definition configFile : File :=
  {| Name := "main";
     Decls := [ GenDecl TYPE [ TypeSpec "Config" false (StructType configFields) ] ] |}.

(** [type Config struct { Host string }] followed by a function whose
    body declares a local [type Config struct { X int }]. *)
Definition hostField : Field := mkField ["Host"] (Ident "string") None.
Definition xField : Field := mkField ["X"] (Ident "int") None.

Definition localConfig : Node :=
  FuncDecl None "f" [] None
    (Some [ DeclStmt (GenDecl TYPE [ TypeSpec "Config" false (StructType [xField]) ]) ]).

Definition shadowFile : File :=
  {| Name := "main";
     Decls := [ GenDecl TYPE [ TypeSpec "Config" false (StructType [hostField]) ];
                localConfig ] |}.

(** Only the function with the local declaration. *)
Definition localOnlyFile : File :=
  {| Name := "main"; Decls := [ localConfig ] |}.

(** Declarations named Config that are not struct types, and a struct
    under another name:
    [type Config interface { Get() string }], [type Config = Other],
    [type Config func(int) error], [type Config int],
    [type config struct { a int }]. *)
Definition otherKindsFile : File :=
  {| Name := "main";
     Decls :=
       [ GenDecl IMPORT [ ImportSpec None (dq ++ "io" ++ dq) ];
         GenDecl TYPE
           [ TypeSpec "Config" false
               (InterfaceType
                  [ mkField ["Get"]
                      (FuncType [] (Some [mkField [] (Ident "string") None])) None ]);
             TypeSpec "Config" true (Ident "Other");
             TypeSpec "Config" false
               (FuncType [mkField [] (Ident "int") None]
                         (Some [mkField [] (Ident "error") None]));
             TypeSpec "Config" false (Ident "int");
             TypeSpec "config" false (StructType [mkField ["a"] (Ident "int") None]) ] ] |}.

(** [data *[]byte], [grid [5]int], an embedded [io.Writer], [a, b string]
    and [Key string `json:"key" env:"custom_Key"`]. *)
Definition bytesField : Field :=
  mkField ["data"] (StarExpr (ArrayType None (Ident "byte"))) None.

Definition gridField : Field :=
  mkField ["grid"] (ArrayType (Some (BasicLit "5")) (Ident "int")) None.

Definition writerField : Field :=
  mkField [] (SelectorExpr (Ident "io") "Writer") None.

Definition groupField : Field := mkField ["a"; "b"] (Ident "string") None.

Definition keyField : Field :=
  mkField ["Key"] (Ident "string")
    (Some ("`json:" ++ dq ++ "key" ++ dq ++ " env:" ++ dq ++ "custom_Key" ++ dq ++ "`")).

(** [Host string `env:"a\tb"`]: the value of the [env] key is written
    with the escape sequence backslash, t. *)
Definition escapedValue : string := "a\tb".


(** [strconv.Unquote] on the double-quoted [escapedValue]: a, a tab, b. *)
Definition unescapedValue : string := String "a" (String "009" "b").

Definition sources : list (string * string * result File) :=
  [ ("config.go",
     "package main" ++ nl ++
     "type Config struct { Host string `env:" ++ dq ++ "HOST_NAME" ++ dq ++
     "`; Port *int; Tags []string }",
     Ok configFile);
    ("shadow.go",
     "package main" ++ nl ++ "type Config struct { Host string }" ++ nl ++
     "func f() { type Config struct { X int } }",
     Ok shadowFile);
    ("local.go",
     "package main" ++ nl ++ "func f() { type Config struct { X int } }",
     Ok localOnlyFile);
    ("other.go",
     "package main" ++ nl ++ "import " ++ dq ++ "io" ++ dq ++ nl ++
     "type ( Config interface { Get() string }; Config = Other; " ++
     "Config func(int) error; Config int; config struct { a int } )",
     Ok otherKindsFile);
    ("broken.go", "package", Err (SyntaxError "broken.go:1:8: expected 'IDENT', found 'EOF'")) ].

Fixpoint find (fileName : string) (l : list (string * string * result File))
  : option (string * result File) :=
  match l with
  | (n, src, r) :: l' => if String.eqb fileName n then Some (src, r) else find fileName l'
  | [] => None
  end.

(** A file system that holds the sample sources, with the parser's
    result on each, and the answer of [strconv.Unquote] on the one
    literal with an escape sequence among the samples.  The samples are
    ASCII text, so the last field is not reached. *)
Definition library : Library :=
  {| ReadFile := fun fileName =>
       match find fileName sources with
       | Some (src, _) => Ok src
       | None => Err (IOError ("open " ++ fileName ++ ": no such file or directory"))
       end;
     ParseFile := fun fileName _ =>
       match find fileName sources with
       | Some (_, r) => r
       | None => Err (SyntaxError fileName)
       end;
     UnquoteEscaped := fun s =>
       if String.eqb s (dq ++ escapedValue ++ dq) then Some unescapedValue
       else None;
     MapToUpper := fun s => s |}.

End samples.

(* ================================================================== *)
(** ** Facts on the library functions *)

Module stringsfacts.
Import strings.

Lemma append_nil_r (s : string) : s ++ "" = s.
Proof. induction s; simpl; congruence. Qed.

Lemma append_assoc (a b c : string) : (a ++ b) ++ c = a ++ (b ++ c).
Proof. induction a; simpl; congruence. Qed.

Lemma rev_append_spec (s acc : string) : rev_append s acc = rev s ++ acc.
Proof.
  unfold rev. revert acc.
  induction s as [|c s IH]; intros acc; simpl; [reflexivity|].
  rewrite IH, (IH (String c "")), append_assoc. reflexivity.
Qed.

Lemma rev_cons (c : ascii) (s : string) : rev (String c s) = rev s ++ String c "".
Proof. unfold rev at 1. simpl. apply rev_append_spec. Qed.

Lemma rev_snoc (c : ascii) (s : string) : rev (s ++ String c "") = String c (rev s).
Proof.
  induction s as [|d s IH]; [reflexivity|].
  simpl. rewrite !rev_cons, IH. reflexivity.
Qed.

Section Snoc.
Variables (m2 : ascii -> ascii -> bool) (m3 : ascii -> ascii -> ascii -> bool).
Variable z : ascii.
Hypothesis z_space : asciiSpace z = false.
Hypothesis z_m2 : forall a, m2 a z = false.
Hypothesis z_m3 : forall a b, m3 a b z = false /\ m3 a z b = false.

(** A byte that ends no white space code point stops the loop. *)
Lemma dropSpace_snoc_le n : forall u,
  String.length u <= n ->
  dropSpace m2 m3 (u ++ String z "") = dropSpace m2 m3 u ++ String z "".
Proof.
  induction n as [|n IH]; intros u Hn.
  - destruct u; [|simpl in Hn; lia]. simpl. rewrite z_space. reflexivity.
  - destruct u as [|a u1]; [simpl; rewrite z_space; reflexivity|].
    simpl in Hn. cbn [append dropSpace].
    destruct (asciiSpace a); [apply IH; lia|].
    destruct u1 as [|b u2]; cbn [append].
    { rewrite z_m2. reflexivity. }
    simpl in Hn.
    destruct (m2 a b); [apply IH; lia|].
    destruct u2 as [|c u3]; cbn [append].
    { rewrite (proj1 (z_m3 a b)). reflexivity. }
    simpl in Hn.
    destruct (m3 a b c); [apply IH; lia|]. reflexivity.
Qed.

Lemma dropSpace_snoc u :
  dropSpace m2 m3 (u ++ String z "") = dropSpace m2 m3 u ++ String z "".
Proof. apply (dropSpace_snoc_le (n := String.length u)). lia. Qed.
End Snoc.

Lemma trimLeftSpace_bracket t : trimLeftSpace (String "[" t) = String "[" t.
Proof. destruct t as [|b [|c t]]; reflexivity. Qed.

Lemma trimRightSpace_bracket t :
  trimRightSpace (String "[" t) = String "[" (trimRightSpace t).
Proof.
  unfold trimRightSpace. rewrite rev_cons, dropSpace_snoc, rev_snoc.
  - reflexivity.
  - reflexivity.
  - intros a. unfold space2. reflexivity.
  - intros a b. unfold space3. split; [reflexivity|].
    simpl. rewrite !andb_false_r. reflexivity.
Qed.
End stringsfacts.

Module astfacts.
Import ast.
Section Walking.
Context {S : Type} (v : option Node -> S -> bool * S).

Lemma walkAll_app l1 l2 s :
  walkAll v (l1 ++ l2) s = walkAll v l2 (walkAll v l1 s).
Proof. unfold walkAll. apply fold_left_app. Qed.

Lemma walkAll_map {A} (f : A -> Node) (g : A -> S -> S) l s :
  (forall a s, Walk v (f a) s = g a s) ->
  walkAll v (map f l) s = fold_left (fun s a => g a s) l s.
Proof.
  intros H. revert s. induction l as [|a l IH]; intros s; simpl; [reflexivity|].
  unfold walkAll in *. simpl. rewrite H. apply IH.
Qed.

(** [Walk] visits the node and, if the visitor goes on, walks the
    children in order and visits nil. *)
Lemma Walk_children n s :
  Walk v n s = visiting v n (walkAll v (children n)) s.
Proof.
  destruct n; unfold visiting.
  all: try reflexivity.
  all: cbn [Walk]; unfold visiting; destruct (v _ s) as [[|] s1]; try reflexivity.
  all: do 2 f_equal; cbn [children].
  all: repeat match goal with
         | |- context [match ?o with Some _ => _ | None => _ end] => destruct o
         end.
  all: cbn [optNode optLit optIdent optFieldList optBlock app].
  all: repeat first
         [ rewrite walkAll_app
         | erewrite walkAll_map by (intros; reflexivity) ].
  all: try reflexivity.
Qed.
End Walking.

Section Induction.
Variable P : Node -> Prop.
Hypothesis step : forall n, Forall P (children n) -> P n.

Lemma P_idents l : Forall P (map Ident l).
Proof.
  induction l; simpl; constructor; [apply step; constructor | assumption].
Qed.

Lemma P_field f : P (Type_ f) -> P (FieldNode f).
Proof.
  destruct f as [names ty tag]. intros Hty. apply step. cbn.
  apply Forall_app. split; [apply P_idents|].
  constructor; [exact Hty|].
  destruct tag; repeat constructor. apply step; constructor.
Qed.

Lemma P_fieldList l : TypesOk P l -> P (FieldList l).
Proof.
  intros Hl. apply step. cbn.
  induction Hl; simpl; constructor; [apply P_field; assumption | assumption].
Qed.

Lemma P_optFieldList o : OptTypesOk P o -> Forall P (optFieldList o).
Proof.
  destruct o; simpl; intros; repeat constructor. apply P_fieldList; assumption.
Qed.

Lemma P_funcType ps rs : TypesOk P ps -> OptTypesOk P rs -> P (FuncType ps rs).
Proof.
  intros. apply step. cbn.
  constructor; [apply P_fieldList | apply P_optFieldList]; assumption.
Qed.

Lemma P_optBlock o :
  match o with Some l => Forall P l | None => True end ->
  Forall P (optBlock o).
Proof.
  destruct o; simpl; intros; repeat constructor. apply step; assumption.
Qed.

(** Induction on the tree: what holds of a node whenever it holds of its
    children holds of every node. *)
Lemma Node_children_ind : forall n, P n.
Proof.
  fix IH 1. intros n.
  pose (nodes := fix go (l : list Node) : Forall P l :=
          match l with
          | [] => Forall_nil P
          | x :: r => Forall_cons x (IH x) (go r)
          end).
  pose (types := fix go (l : list Field) : TypesOk P l :=
          match l return TypesOk P l with
          | [] => Forall_nil _
          | f :: r => Forall_cons f (IH (Type_ f)) (go r)
          end).
  pose (otypes := fun o : option (list Field) =>
          match o return OptTypesOk P o with
          | Some l => types l
          | None => I
          end).
  destruct n.
  - apply step; constructor.
  - apply step; constructor.
  - apply step; cbn; repeat constructor.
    + apply P_funcType; [apply types | apply otypes].
    + apply step, nodes.
  - apply step; cbn; repeat constructor; apply IH.
  - apply step; cbn; repeat constructor; [apply IH | apply step; constructor].
  - apply step; cbn; constructor; [apply IH | apply nodes].
  - apply step; cbn; repeat constructor; apply IH.
  - apply step; cbn. destruct Len; cbn; repeat constructor; apply IH.
  - apply step; cbn; repeat constructor. apply P_fieldList, types.
  - apply P_funcType; [apply types | apply otypes].
  - apply step; cbn; repeat constructor. apply P_fieldList, types.
  - apply step; cbn; repeat constructor; apply IH.
  - apply P_field, IH.
  - apply P_fieldList, types.
  - apply step; cbn; repeat constructor; apply IH.
  - apply step; cbn; repeat constructor; apply IH.
  - apply step, nodes.
  - apply step, nodes.
  - apply step; cbn. destruct Name0; cbn; repeat constructor; apply step; constructor.
  - apply step; cbn. apply Forall_app; split; [apply P_idents|].
    apply Forall_app; split; [|apply nodes].
    destruct Type_0; cbn; repeat constructor. apply IH.
  - apply step; cbn; repeat constructor; [apply step; constructor | apply IH].
  - apply step, nodes.
  - apply step; cbn. apply Forall_app; split.
    + apply P_optFieldList, otypes.
    + constructor; [apply step; constructor|].
      constructor; [apply P_funcType; [apply types | apply otypes]|].
      apply P_optBlock. destruct Body; [apply nodes | exact I].
  - apply step; cbn. constructor; [apply step; constructor | apply nodes].
Qed.
End Induction.



Lemma walkAll_collect (l : list Node) :
  Forall (fun c => forall acc, Walk collect c acc = (acc ++ nodes c)%list) l ->
  forall acc, walkAll collect l acc = (acc ++ flat_map nodes l)%list.
Proof.
  induction 1 as [|c l Hc _ IH]; intros acc; cbn [walkAll fold_left flat_map].
  - symmetry. apply app_nil_r.
  - fold (walkAll collect l (Walk collect c acc)).
    rewrite Hc, IH, <- app_assoc. reflexivity.
Qed.

Lemma Walk_collect (n : Node) :
  forall acc, Walk collect n acc = (acc ++ nodes n)%list.
Proof.
  induction n as [n IH] using Node_children_ind. intros acc.
  unfold nodes.
  rewrite !Walk_children. unfold visiting. cbn [collect snd].
  rewrite !(walkAll_collect IH), <- app_assoc. reflexivity.
Qed.

(** The nodes of a tree: the node, then the nodes of its children. *)
Lemma nodes_children (n : Node) :
  nodes n = n :: flat_map nodes (children n).
Proof.
  unfold nodes at 1.
  rewrite Walk_children. unfold visiting. cbn [collect snd].
  rewrite walkAll_collect; [reflexivity|].
  apply Forall_forall. intros c _. apply Walk_collect.
Qed.

End astfacts.

Module reflectfacts.
Import reflect.

Section Pairs.
Context `{Library}.

Lemma plainBody_snoc (v : string) :
  strconv.plain v = true ->
  strconv.plainBody (v ++ String "034" "") = Some v.
Proof.
  unfold strconv.plain.
  induction v as [|c v IH]; [reflexivity|].
  cbn [list_ascii_of_string forallb]. intros Hc.
  apply andb_true_iff in Hc as [Hc Hv].
  cbn [append strconv.plainBody]. rewrite Hc, (IH Hv).
  destruct (v ++ String "034" "") eqn:E; [destruct v; discriminate | reflexivity].
Qed.

(** A quoted text of plain bytes is unquoted to the text itself. *)
Lemma Unquote_plain (v : string) :
  strconv.plain v = true ->
  strconv.Unquote (String "034" (v ++ String "034" "")) = Some v.
Proof. intros Hv. unfold strconv.Unquote. cbn. rewrite (plainBody_snoc v Hv). reflexivity. Qed.

Lemma plainByte_not_quote (c : ascii) :
  strconv.plainByte c = true ->
  Ascii.eqb c "034" = false /\ Ascii.eqb c "092" = false.
Proof.
  unfold strconv.plainByte. intros Hc.
  apply andb_true_iff in Hc as [_ Hc]. apply negb_true_iff in Hc.
  apply orb_false_iff in Hc as [Hc _]. apply orb_false_iff in Hc as [Hb Hq].
  split; assumption.
Qed.

Lemma scanValue_plain (key name : string) (v rest : string) :
  strconv.plain v = true ->
  forall qvalue,
    scanValue key name qvalue (v ++ String "034" rest)
    = if String.eqb key name
      then strconv.Unquote (qvalue ++ v ++ String "034" "")
      else Lookup rest key.
Proof.
  unfold strconv.plain.
  induction v as [|c v IH]; intros Hv qvalue.
  - reflexivity.
  - cbn [list_ascii_of_string forallb] in Hv.
    apply andb_true_iff in Hv as [Hc Hv].
    destruct (plainByte_not_quote c Hc) as [Hq Hb].
    cbn [append scanValue]. rewrite Hq, Hb, (IH Hv).
    rewrite stringsfacts.append_assoc. reflexivity.
Qed.

Lemma scanName_name (key n s : string) :
  nameBytes n = true ->
  forall name,
    scanName key name (n ++ String ":" (String "034" s))
    = scanValue key (name ++ n) (String "034" "") s.
Proof.
  unfold nameBytes.
  induction n as [|c n IH]; intros Hn name.
  - cbn [append scanName].
    change (nameByte ":") with false. cbn.
    rewrite stringsfacts.append_nil_r. reflexivity.
  - cbn [list_ascii_of_string forallb] in Hn.
    apply andb_true_iff in Hn as [Hc Hn].
    cbn [append scanName]. rewrite Hc, (IH Hn).
    rewrite stringsfacts.append_assoc. reflexivity.
Qed.

Lemma nameByte_not_space (c : ascii) :
  nameByte c = true -> Ascii.eqb c " " = false.
Proof.
  destruct (Ascii.eqb_spec c " ") as [->|_]; [discriminate | reflexivity].
Qed.

(** The first pair of a tag, with a non-empty key and a plain value: it
    answers for its key and is stepped over for another. *)
Lemma Lookup_pair (key : string) (c : ascii) (n v rest : string) :
  nameBytes (String c n) = true ->
  strconv.plain v = true ->
  Lookup (String c n ++ String ":" (String "034" (v ++ String "034" rest))) key
  = if String.eqb key (String c n) then Some v else Lookup rest key.
Proof.
  unfold nameBytes. cbn [list_ascii_of_string forallb]. intros Hn Hv.
  apply andb_true_iff in Hn as [Hc Hn].
  cbn [append Lookup]. rewrite (nameByte_not_space c Hc), Hc.
  rewrite (scanName_name key n _ Hn), (scanValue_plain key _ v rest Hv).
  cbn [append]. rewrite (Unquote_plain v Hv). reflexivity.
Qed.

End Pairs.
End reflectfacts.

(* ================================================================== *)
(** ** Facts on the parser *)

Module parserfacts.
Import ast parser locate astfacts.

Lemma isPointer_spec (s : string) :
  isPointer s = true <-> exists rest, s = String "*" rest.
Proof.
  unfold isPointer. destruct s as [|c s]; simpl.
  - split; [discriminate | intros [rest Hr]; discriminate].
  - destruct (Ascii.eqb_spec c "*") as [->|Hne].
    + split; eauto.
    + split; [discriminate | intros [rest Hr]; congruence].
Qed.

Lemma isArray_spec (s : string) :
  isArray s = true <->
  3 <= String.length s /\ exists rest, s = String "[" (String "]" rest).
Proof.
  unfold isArray. destruct s as [|a [|b s]]; simpl.
  - split; [discriminate | intros [Hl _]; lia].
  - split; [discriminate | intros [Hl _]; lia].
  - destruct s as [|c s]; simpl.
    + split; [discriminate | intros [Hl _]; lia].
    + destruct (Ascii.eqb_spec a "[") as [->|Ha];
        [destruct (Ascii.eqb_spec b "]") as [->|Hb]|].
      * split; [intros _; split; [lia | eauto] | reflexivity].
      * split; [discriminate | intros [_ [rest Hr]]; congruence].
      * split; [discriminate | intros [_ [rest Hr]]; congruence].
Qed.

(** A loop that appends one element per item. *)
Lemma fold_left_snoc {A B : Type} (r : A -> B) (l : list A) :
  forall acc : list B,
    fold_left (fun acc a => (acc ++ [r a])%list) l acc = (acc ++ map r l)%list.
Proof.
  induction l as [|a l IH]; intros acc; simpl.
  - symmetry. apply app_nil_r.
  - rewrite IH, <- app_assoc. reflexivity.
Qed.

Section Fields.
Context `{Library}.

(** The inner loop over the names of an entry appends one record per
    name. *)
Lemma appendFields_named (fields : list Field.t) name names type tag :
  appendFields fields (mkField (name :: names) type tag) =
  (fields ++
   map (fun fieldName =>
          let fieldType := types.ExprString type in
          {| Field.Name := fieldName;
             Field.Type_ := cleanTypeStr fieldType;
             Field.EnvTag :=
               getEnvSourceTag
                 (match tag with
                  | Some value => strings.Trim value "`"
                  | None => ""
                  end) fieldName;
             Field.IsPointer := isPointer fieldType;
             Field.IsArray := isArray fieldType |})
       (name :: names))%list.
Proof.
  unfold appendFields. cbn [Names Type_ Tag].
  apply (fold_left_snoc
           (fun fieldName =>
              {| Field.Name := fieldName;
                 Field.Type_ := cleanTypeStr (types.ExprString type);
                 Field.EnvTag := getEnvSourceTag
                   (match tag with
                    | Some value => strings.Trim value "`"
                    | None => ""
                    end) fieldName;
                 Field.IsPointer := isPointer (types.ExprString type);
                 Field.IsArray := isArray (types.ExprString type) |})).
Qed.

Lemma appendFields_acc (fields : list Field.t) (field : ast.Field) :
  appendFields fields field = (fields ++ getFields [field])%list.
Proof.
  unfold getFields. cbn [fold_left].
  destruct field as [[|name names] type tag].
  - reflexivity.
  - rewrite !appendFields_named. reflexivity.
Qed.

Lemma fold_appendFields (node : list ast.Field) :
  forall fields,
    fold_left appendFields node fields = (fields ++ getFields node)%list.
Proof.
  unfold getFields.
  induction node as [|field node IH]; intros fields; cbn [fold_left].
  - symmetry. apply app_nil_r.
  - rewrite IH, (IH (appendFields [] field)), appendFields_acc, app_assoc.
    reflexivity.
Qed.

Lemma getFields_cons (field : ast.Field) (node : list ast.Field) :
  getFields (field :: node) = (getFields [field] ++ getFields node)%list.
Proof.
  unfold getFields at 1. cbn [fold_left].
  rewrite fold_appendFields, appendFields_acc. reflexivity.
Qed.

Lemma getFields_app (pre post : list ast.Field) :
  getFields (pre ++ post) = (getFields pre ++ getFields post)%list.
Proof.
  unfold getFields at 1. rewrite fold_left_app.
  fold (getFields pre). apply fold_appendFields.
Qed.

(** The records of a field list are those of its entries, in order. *)
Lemma getFields_split (pre post : list ast.Field) (field : ast.Field) :
  getFields (pre ++ field :: post) =
  (getFields pre ++ getFields [field] ++ getFields post)%list.
Proof. rewrite getFields_app, getFields_cons. reflexivity. Qed.

Lemma getFields_In (node : list ast.Field) (r : Field.t) :
  In r (getFields node) ->
  exists field, In field node /\ In r (getFields [field]).
Proof.
  induction node as [|field node IH]; [intros []|].
  rewrite getFields_cons. intros Hr. apply in_app_or in Hr as [Hr|Hr].
  - exists field. split; [left; reflexivity | exact Hr].
  - destruct (IH Hr) as [g [Hg Hrg]]. exists g. split; [right|]; assumption.
Qed.

End Fields.


Section Locating.
Context `{Library}.
Variable f : ast.File.
Variable name : string.

Lemma fill_Name r t : Type_.Name (fill r t) = Type_.Name t.
Proof. destruct r as [[package fields]|]; reflexivity. Qed.

Lemma fill_fill r1 r2 t :
  fill r2 (fill r1 t) = fill (match r2 with Some _ => r2 | None => r1 end) t.
Proof.
  destruct r2 as [[p2 fs2]|]; [|reflexivity].
  destruct r1 as [[p1 fs1]|]; reflexivity.
Qed.

Lemma inspector_nil t : inspector f None t = (true, t).
Proof. reflexivity. Qed.

Lemma inspector_other x t :
  structSpec (Type_.Name t) x = false -> inspector f (Some x) t = (true, t).
Proof.
  destruct x as [| | | | | | | | | | | | | | | | | | | |n a ty| | |];
    try reflexivity.
  destruct ty; try reflexivity.
  simpl. intros ->. reflexivity.
Qed.

Lemma inspector_struct x t :
  structSpec (Type_.Name t) x = true ->
  exists assign fields,
    x = TypeSpec (Type_.Name t) assign (StructType fields) /\
    inspector f (Some x) t =
    (false, fill (Some (ast.Name f, getFields fields)) t).
Proof.
  destruct x as [| | | | | | | | | | | | | | | | | | | |n a ty| | |];
    try discriminate.
  destruct ty; try discriminate.
  simpl. intros Hn. rewrite Hn. apply String.eqb_eq in Hn. subst n.
  eauto.
Qed.

Lemma walkAll_inspector (l : list Node) :
  Forall (fun c => exists r, Located f name [c] r /\
            forall t, Type_.Name t = name ->
                      Walk (inspector f) c t = fill r t) l ->
  exists r, Located f name l r /\
    forall t, Type_.Name t = name -> walkAll (inspector f) l t = fill r t.
Proof.
  induction 1 as [|c l [rc [Lc Hc]] _ [rl [Ll Hl]]].
  - exists None. split; [reflexivity | intros; reflexivity].
  - exists (match rl with Some _ => rl | None => rc end). split.
    + unfold Located in *. cbn [flat_map] in *. rewrite app_nil_r in Lc.
      destruct rl as [[p fs]|].
      * destruct Ll as [-> [a [st [Hin ->]]]]. split; [reflexivity|].
        exists a, st. split; [apply in_or_app; right; exact Hin | reflexivity].
      * destruct rc as [[p fs]|].
        -- destruct Lc as [-> [a [st [Hin ->]]]]. split; [reflexivity|].
           exists a, st. split; [apply in_or_app; left; exact Hin | reflexivity].
        -- rewrite existsb_app, Lc, Ll. reflexivity.
    + intros t Ht. unfold walkAll. cbn [fold_left].
      fold (walkAll (inspector f) l (Walk (inspector f) c t)).
      rewrite (Hc t Ht), Hl by (rewrite fill_Name; exact Ht).
      apply fill_fill.
Qed.

(** A traversal fills the receiver with the package of the file and the
    fields of a struct declared under the name at some node, or leaves
    it as it is when no node declares one. *)
Lemma Walk_inspector (n : Node) :
  exists r, Located f name [n] r /\
    forall t, Type_.Name t = name -> Walk (inspector f) n t = fill r t.
Proof.
  induction n as [n IH] using Node_children_ind.
  destruct (structSpec name n) eqn:Hs.
  - exists (match n with
            | TypeSpec _ _ (StructType st) => Some (ast.Name f, getFields st)
            | _ => None
            end).
    split.
    + destruct n as [| | | | | | | | | | | | | | | | | | | |n a ty| | |];
        try discriminate.
      destruct ty as [| | | | | | | |st| | | | | | | | | | | | | | |];
        try discriminate.
      simpl in Hs. apply String.eqb_eq in Hs. subst n.
      split; [reflexivity|]. exists a, st. split; [|reflexivity].
      cbn [flat_map]. rewrite app_nil_r, nodes_children. left. reflexivity.
    + intros t Ht. rewrite Walk_children. unfold visiting.
      rewrite <- Ht in Hs.
      destruct (inspector_struct n t Hs) as [a [st [-> ->]]]. reflexivity.
  - destruct (walkAll_inspector IH) as [r [Lr Hr]].
    exists r. split.
    + unfold Located in *. cbn [flat_map]. rewrite app_nil_r, nodes_children.
      destruct r as [[p fs]|].
      * destruct Lr as [-> [a [st [Hin ->]]]]. split; [reflexivity|].
        exists a, st. split; [right; exact Hin | reflexivity].
      * cbn [existsb]. rewrite Hs, Lr. reflexivity.
    + intros t Ht. rewrite Walk_children. unfold visiting.
      rewrite inspector_other by (rewrite Ht; exact Hs).
      rewrite inspector_nil. cbn [snd]. apply Hr, Ht.
Qed.

End Locating.
Lemma cleanTypeStr_bracket (t : string) :
  cleanTypeStr (String "[" t) =
  strings.TrimLeft (strings.trimRightSpace t) "[]".
Proof.
  unfold cleanTypeStr, strings.TrimSpace.
  rewrite stringsfacts.trimLeftSpace_bracket, stringsfacts.trimRightSpace_bracket.
  reflexivity.
Qed.

Section Entries.
Context `{Library}.

Lemma getFields_entry_nonempty (field : ast.Field) : getFields [field] <> [].
Proof.
  destruct field as [[|name names] type tag]; [discriminate|].
  unfold getFields. cbn [fold_left]. rewrite appendFields_named. discriminate.
Qed.

(** The type and the flags of every record of an entry come from the
    rendered type of the entry. *)
Lemma getFields_entry_type (field : ast.Field) (r : Field.t) :
  In r (getFields [field]) ->
  Field.Type_ r = cleanTypeStr (types.ExprString (ast.Type_ field)) /\
  Field.IsPointer r = isPointer (types.ExprString (ast.Type_ field)) /\
  Field.IsArray r = isArray (types.ExprString (ast.Type_ field)).
Proof.
  destruct field as [[|name names] type tag].
  - intros [<-|[]]. repeat split.
  - unfold getFields. cbn [fold_left]. rewrite appendFields_named.
    cbn [app]. intros Hr. apply in_map_iff in Hr as [n [<- _]]. repeat split.
Qed.

(** The name and the environment tag of every record of an entry. *)
Lemma getFields_entry_tag (field : ast.Field) (r : Field.t) :
  In r (getFields [field]) ->
  let tags :=
    match ast.Tag field with
    | Some value => strings.Trim value "`"
    | None => ""
    end in
  match ast.Names field with
  | [] =>
      Field.Name r = "" /\
      Field.EnvTag r = getEnvSourceTag tags (types.ExprString (ast.Type_ field))
  | names =>
      In (Field.Name r) names /\
      Field.EnvTag r = getEnvSourceTag tags (Field.Name r)
  end.
Proof.
  destruct field as [[|name names] type tag].
  - intros [<-|[]]. split; reflexivity.
  - unfold getFields. cbn [fold_left]. rewrite appendFields_named.
    cbn [app Names Tag]. intros Hr. apply in_map_iff in Hr as [n [<- Hn]].
    split; [exact Hn | reflexivity].
Qed.

End Entries.
End parserfacts.

(* ================================================================== *)
(** ** The pipeline on the samples *)

Import ast parser locate astfacts parserfacts.

(** The scenario [type Config struct { Host string `env:"HOST_NAME"`;
    Port *int; Tags []string }]. *)
Example scenario_fields `{Library} :
  getFields samples.configFields
  = [ Field.mk "Host" "string" "HOST_NAME" false false;
      Field.mk "Port" "int" "PORT" true false;
      Field.mk "Tags" "string" "TAGS" false true ].
Proof. reflexivity. Qed.

Example scenario_parse :
  @Parse samples.library (NewType "Config") "config.go"
  = ({| Type_.FileName := "config.go"; Type_.Name := "Config";
        Type_.Fields := @getFields samples.library samples.configFields;
        Type_.Package := "main" |}, None).
Proof. reflexivity. Qed.

(** A tag with an [env] key after another key: its value is taken as it
    is, whatever the name of the field. *)
Example explicit_tag `{Library} :
  getFields [samples.keyField]
  = [ Field.mk "Key" "string" "custom_Key" false false ].
Proof. reflexivity. Qed.

(** An embedded field without a tag. *)
Example embedded_field `{Library} :
  getFields [samples.writerField]
  = [ Field.mk "" "io.Writer" "IO.WRITER" false false ].
Proof. reflexivity. Qed.

Example pointer_and_slice_types :
  map cleanTypeStr ["*int"; "[]string"; "*[]byte"; "[]*int"; "**int"; "[5]int"; " map[string]int "]
  = ["int"; "string"; "byte"; "*int"; "int"; "5]int"; "map[string]int"].
Proof. reflexivity. Qed.

(* ================================================================== *)
(** ** The claims *)

(** C1, as the code has it.  For every field whose rendered type is
    [*[]byte], within any struct, the records produced for it have
    IsPointer = true, IsArray = false and the cleaned Type "byte":
    cleaning trims the surrounding white space, then every leading '*',
    then every leading '[' or ']', once and in that order, so that a
    pointer to a slice loses both markers while a slice of pointers keeps
    its inner marker ([[]*int] is cleaned to "*int"). *)
Theorem C1_pointer_to_slice `{Library} (pre post : list ast.Field)
        (field : ast.Field) :
  types.ExprString (ast.Type_ field) = "*[]byte" ->
  (exists records,
     getFields (pre ++ field :: post)
     = (getFields pre ++ records ++ getFields post)%list /\
     records <> [] /\
     Forall (fun r => Field.IsPointer r = true /\ Field.IsArray r = false /\
                      Field.Type_ r = "byte") records) /\
  (forall typ,
     cleanTypeStr typ
     = strings.TrimLeft (strings.TrimLeft (strings.TrimSpace typ) "*") "[]") /\
  cleanTypeStr "[]*int" = "*int".
Proof.
  intros Hty. split; [|split; reflexivity].
  exists (getFields [field]). split; [apply getFields_split|].
  split; [apply getFields_entry_nonempty|].
  apply Forall_forall. intros r Hr.
  destruct (getFields_entry_type field r Hr) as (-> & -> & ->).
  rewrite Hty. repeat split.
Qed.

Lemma C1_pointer_to_slice_witness :
  types.ExprString (ast.Type_ samples.bytesField) = "*[]byte" /\
  exists records,
    @getFields samples.library ([] ++ samples.bytesField :: [])
    = (@getFields samples.library [] ++ records ++ @getFields samples.library [])%list /\
    records <> [] /\
    Forall (fun r => Field.IsPointer r = true /\ Field.IsArray r = false /\
                     Field.Type_ r = "byte") records.
Proof.
  split; [reflexivity|].
  apply (@C1_pointer_to_slice samples.library [] [] samples.bytesField).
  reflexivity.
Defined.

(** C1 as stated fails: the record of [data *[]byte] has the cleaned
    Type "byte", not "[]byte". *)
Lemma C1_counterexample :
  types.ExprString (ast.Type_ samples.bytesField) = "*[]byte" /\
  map Field.Type_ (@getFields samples.library [samples.bytesField]) = ["byte"] /\
  "byte" <> "[]byte".
Proof. repeat split. discriminate. Qed.

(** C4.  Within any struct, the records of a field entry are those
    that the entry gives alone, at the place of the entry and at least
    one, and the flags of each are computed from the rendered type of
    that entry as written, before any cleaning: IsPointer holds exactly
    when that string is not empty and begins with '*', IsArray exactly
    when it has at least three bytes and begins with "[]"; the cleaned
    Type is computed from the same string and has no part in the
    flags. *)
Theorem C4_flags_from_rendered_type `{Library} (pre post : list ast.Field)
        (field : ast.Field) :
  let typeName := types.ExprString (ast.Type_ field) in
  getFields (pre ++ field :: post)
  = (getFields pre ++ getFields [field] ++ getFields post)%list /\
  getFields [field] <> [] /\
  Forall (fun r =>
            (Field.IsPointer r = true <->
               exists rest, typeName = String "*" rest) /\
            (Field.IsArray r = true <->
               3 <= String.length typeName /\
               exists rest, typeName = String "[" (String "]" rest)) /\
            Field.Type_ r = cleanTypeStr typeName)
         (getFields [field]).
Proof.
  cbv zeta. split; [apply getFields_split|].
  split; [apply getFields_entry_nonempty|].
  apply Forall_forall. intros r Hr.
  destruct (getFields_entry_type field r Hr) as (-> & -> & ->).
  split; [apply isPointer_spec|]. split; [apply isArray_spec | reflexivity].
Qed.

(** C5.  A field entry with the names n1, ..., nN (N >= 1) of one type
    yields, within any struct, exactly N records in the order of the
    names, all with the same Type, IsPointer and IsArray, each with the
    EnvTag derived from its own name; without a tag, [a, b string] yields
    the two records a and b of Type "string", both flags false, with the
    EnvTag "A" and "B". *)
Theorem C5_grouped_names `{Library} (pre post : list ast.Field)
        (name : string) (names : list string) (type : ast.Node)
        (tag : option string) :
  let fieldType := types.ExprString type in
  let tags :=
    match tag with Some value => strings.Trim value "`" | None => "" end in
  let records :=
    map (fun fieldName =>
           {| Field.Name := fieldName;
              Field.Type_ := cleanTypeStr fieldType;
              Field.EnvTag := getEnvSourceTag tags fieldName;
              Field.IsPointer := isPointer fieldType;
              Field.IsArray := isArray fieldType |})
        (name :: names) in
  getFields (pre ++ mkField (name :: names) type tag :: post)
  = (getFields pre ++ records ++ getFields post)%list /\
  List.length records = List.length (name :: names) /\
  getFields [mkField ["a"; "b"] (Ident "string") None]
  = [ {| Field.Name := "a"; Field.Type_ := "string"; Field.EnvTag := "A";
         Field.IsPointer := false; Field.IsArray := false |};
      {| Field.Name := "b"; Field.Type_ := "string"; Field.EnvTag := "B";
         Field.IsPointer := false; Field.IsArray := false |} ].
Proof.
  cbv zeta. split; [|split; [apply length_map | reflexivity]].
  rewrite getFields_split. do 2 f_equal.
  unfold getFields. cbn [fold_left]. rewrite appendFields_named. reflexivity.
Qed.

(** C10.  For every field whose rendered type begins with '[' and has a
    second byte other than ']' (a fixed-size array such as [[5]int]),
    within any struct, the records produced for it have IsArray = false
    and IsPointer = false, and their cleaned Type is the rendered type
    without its leading '[': the trim of the set of '[' and ']' is
    applied to the rest, after the trailing white space is removed.  When
    the second byte is not '[' and there is no trailing white space, the
    cleaned Type is the rest as it is ([[5]int] gives "5]int"). *)
Theorem C10_fixed_size_array `{Library} (pre post : list ast.Field)
        (field : ast.Field) (c : ascii) (rest : string) :
  types.ExprString (ast.Type_ field) = String "[" (String c rest) ->
  c <> "]"%char ->
  exists records,
    getFields (pre ++ field :: post)
    = (getFields pre ++ records ++ getFields post)%list /\
    records <> [] /\
    Forall (fun r =>
              Field.IsArray r = false /\ Field.IsPointer r = false /\
              Field.Type_ r
              = strings.TrimLeft (strings.trimRightSpace (String c rest)) "[]" /\
              (c <> "["%char ->
               strings.trimRightSpace (String c rest) = String c rest ->
               Field.Type_ r = String c rest)) records.
Proof.
  intros Hty Hc.
  exists (getFields [field]). split; [apply getFields_split|].
  split; [apply getFields_entry_nonempty|].
  apply Forall_forall. intros r Hr.
  destruct (getFields_entry_type field r Hr) as (-> & -> & ->).
  rewrite Hty, cleanTypeStr_bracket.
  assert (Harr : isArray (String "[" (String c rest)) = false).
  { unfold isArray. cbn [String.substring String.eqb].
    rewrite Ascii.eqb_refl.
    destruct (Ascii.eqb_spec c "]") as [->|_]; [contradiction|].
    apply andb_false_r. }
  repeat split; [exact Harr|].
  intros Hb ->. unfold strings.TrimLeft. cbn [strings.dropWhile strings.containsByte].
  destruct (Ascii.eqb_spec c "[") as [->|_]; [contradiction|].
  destruct (Ascii.eqb_spec c "]") as [->|_]; [contradiction|].
  reflexivity.
Qed.

Lemma C10_fixed_size_array_witness :
  exists records,
    @getFields samples.library ([] ++ samples.gridField :: [])
    = (@getFields samples.library [] ++ records ++ @getFields samples.library [])%list /\
    records <> [] /\
    Forall (fun r =>
              Field.IsArray r = false /\ Field.IsPointer r = false /\
              Field.Type_ r
              = strings.TrimLeft (strings.trimRightSpace "5]int") "[]" /\
              ("5"%char <> "["%char ->
               strings.trimRightSpace "5]int" = "5]int" ->
               Field.Type_ r = "5]int")) records.
Proof.
  apply (@C10_fixed_size_array samples.library [] [] samples.gridField
           "5"%char "]int").
  - reflexivity.
  - discriminate.
Defined.

Section Parsing.
Context `{Library}.

Lemma Parse_read_error (t : Type_.t) (fileName : string) (err : error) :
  ReadFile fileName = Err err ->
  Parse t fileName = (Type_.setFileName t fileName, Some err).
Proof. unfold Parse. intros ->. reflexivity. Qed.

Lemma Parse_syntax_error (t : Type_.t) (fileName content : string)
      (err : error) :
  ReadFile fileName = Ok content ->
  ParseFile fileName content = Err err ->
  Parse t fileName = (Type_.setFileName t fileName, Some err).
Proof. unfold Parse. intros -> ->. reflexivity. Qed.

(** On a file that is read and parsed, [Parse] returns nil and leaves
    what the traversal of the file leaves. *)
Lemma Parse_located (t : Type_.t) (fileName content : string) (f : ast.File) :
  ReadFile fileName = Ok content ->
  ParseFile fileName content = Ok f ->
  exists r,
    Located f (Type_.Name t) [FileNode f] r /\
    forall t0, Type_.Name t0 = Type_.Name t ->
      Parse t0 fileName = (fill r (Type_.setFileName t0 fileName), None).
Proof.
  intros Hread Hparse.
  destruct (Walk_inspector f (Type_.Name t) (FileNode f)) as [r [Lr Hr]].
  exists r. split; [exact Lr|].
  intros t0 Ht0. unfold Parse, Inspect. rewrite Hread, Hparse.
  rewrite Hr by exact Ht0. reflexivity.
Qed.

Lemma Located_declares (f : ast.File) (name : string) (n : Node) r :
  Located f name [n] r ->
  declaresStruct name n = match r with Some _ => true | None => false end.
Proof.
  unfold Located, declaresStruct. cbn [flat_map]. rewrite app_nil_r.
  destruct r as [[package fields]|]; [|trivial].
  intros [_ [assign [st [Hin _]]]].
  apply existsb_exists. exists (TypeSpec name assign (StructType st)).
  split; [exact Hin|]. simpl. apply String.eqb_refl.
Qed.

End Parsing.

(** C3.  On a file that is read and parsed and in which no node declares
    a struct type under the requested name, [Parse] returns nil and
    leaves Package and Fields as they were: the empty string and the
    empty sequence on a receiver made by [NewType]. *)
Theorem C3_no_match_is_silent `{Library} (name fileName content : string)
        (f : ast.File) :
  ReadFile fileName = Ok content ->
  ParseFile fileName content = Ok f ->
  declaresStruct name (FileNode f) = false ->
  Parse (NewType name) fileName
  = ({| Type_.FileName := fileName; Type_.Name := name;
        Type_.Fields := []; Type_.Package := "" |}, None) /\
  forall t, Type_.Name t = name ->
    Parse t fileName = (Type_.setFileName t fileName, None).
Proof.
  intros Hread Hparse Hno.
  destruct (Parse_located (NewType name) fileName Hread Hparse) as [r [Lr Hr]].
  cbn [NewType Type_.Name] in Lr, Hr.
  apply Located_declares in Lr. rewrite Lr in Hno.
  destruct r as [x|]; [discriminate|].
  split; [apply (Hr (NewType name)); reflexivity | exact Hr].
Qed.

Lemma C3_no_match_is_silent_witness :
  @Parse samples.library (NewType "Config") "other.go"
  = ({| Type_.FileName := "other.go"; Type_.Name := "Config";
        Type_.Fields := []; Type_.Package := "" |}, None) /\
  forall t, Type_.Name t = "Config" ->
    @Parse samples.library t "other.go" = (Type_.setFileName t "other.go", None).
Proof.
  eapply (@C3_no_match_is_silent samples.library "Config" "other.go" _
            samples.otherKindsFile); reflexivity.
Defined.

(** C7, as the code has it.  When [Parse] fails, the error is the one of
    [ReadFile] or of [ParseFile], as it is, and the receiver has its
    FileName set to the argument, which is done before the file is read;
    Name, Package and Fields are as before the call. *)
Theorem C7_error_path `{Library} (t t' : Type_.t) (fileName : string)
        (err : error) :
  Parse t fileName = (t', Some err) ->
  (ReadFile fileName = Err err \/
   exists content,
     ReadFile fileName = Ok content /\ ParseFile fileName content = Err err) /\
  Type_.FileName t' = fileName /\
  Type_.Name t' = Type_.Name t /\
  Type_.Package t' = Type_.Package t /\
  Type_.Fields t' = Type_.Fields t.
Proof.
  unfold Parse.
  destruct (ReadFile fileName) as [content|e] eqn:Hread.
  - destruct (ParseFile fileName content) as [f|e] eqn:Hparse; [discriminate|].
    intros [= <- <-]. split; [right; exists content; split; trivial|].
    repeat split.
  - intros [= <- <-]. split; [left; reflexivity|]. repeat split.
Qed.

Lemma C7_error_path_witness :
  (@ReadFile samples.library "broken.go"
   = Err (SyntaxError "broken.go:1:8: expected 'IDENT', found 'EOF'") \/
   exists content,
     @ReadFile samples.library "broken.go" = Ok content /\
     @ParseFile samples.library "broken.go" content
     = Err (SyntaxError "broken.go:1:8: expected 'IDENT', found 'EOF'")) /\
  Type_.FileName (Type_.mk "broken.go" "Config" [] "") = "broken.go" /\
  Type_.Name (Type_.mk "broken.go" "Config" [] "") = Type_.Name (NewType "Config") /\
  Type_.Package (Type_.mk "broken.go" "Config" [] "") = Type_.Package (NewType "Config") /\
  Type_.Fields (Type_.mk "broken.go" "Config" [] "") = Type_.Fields (NewType "Config").
Proof.
  apply (@C7_error_path samples.library (NewType "Config")
           (Type_.mk "broken.go" "Config" [] "") "broken.go").
  reflexivity.
Defined.

(** C7 as stated fails: on a file that cannot be read, the receiver has
    a field other than Name that is no longer as before the call. *)
Lemma C7_counterexample :
  snd (@Parse samples.library (NewType "Config") "missing.go")
  = Some (IOError "open missing.go: no such file or directory") /\
  Type_.FileName (fst (@Parse samples.library (NewType "Config") "missing.go"))
  <> Type_.FileName (NewType "Config").
Proof. split; [reflexivity | discriminate]. Qed.

(** C9.  Parsing again, with the same file name and the same file, the
    receiver that a first [Parse] left gives the same receiver and the
    same error; [Parse] is a function of the receiver, the file name and
    the library, so two receivers made by [NewType] with one name give
    the same result. *)
Theorem C9_parse_idempotent `{Library} (t : Type_.t) (fileName : string) :
  Parse (fst (Parse t fileName)) fileName = Parse t fileName.
Proof.
  destruct (ReadFile fileName) as [content|e] eqn:Hread.
  - destruct (ParseFile fileName content) as [f|e] eqn:Hparse.
    + destruct (Parse_located t fileName Hread Hparse) as [r [_ Hr]].
      rewrite (Hr t eq_refl). cbn [fst].
      rewrite Hr by (rewrite fill_Name; reflexivity).
      destruct r as [[package fields]|]; reflexivity.
    + rewrite !(Parse_syntax_error _ _ Hread Hparse). reflexivity.
  - rewrite !(Parse_read_error _ _ Hread). reflexivity.
Qed.

(** C8, as the code has it.  Only declarations of a struct type are
    considered when the requested name is matched, and they are
    considered at any depth of the file, a declaration local to a
    function body like a top-level one.  At a node that is not a
    declaration of a struct type under the requested name (an interface,
    a function type, an alias or a redefinition of a named type bearing
    the name) the receiver is left as it is and the traversal goes on
    into the children.  Package and Fields are populated exactly when
    some node of the file declares a struct type under the requested
    name, and then from such a declaration. *)
Theorem C8_struct_declarations_at_any_depth `{Library} (t : Type_.t)
        (fileName content : string) (f : ast.File) :
  ReadFile fileName = Ok content ->
  ParseFile fileName content = Ok f ->
  (forall x t0, structSpec (Type_.Name t0) x = false ->
                inspector f (Some x) t0 = (true, t0)) /\
  let t' := fst (Parse t fileName) in
  if declaresStruct (Type_.Name t) (FileNode f)
  then Type_.Package t' = ast.Name f /\
       exists assign st,
         In (TypeSpec (Type_.Name t) assign (StructType st))
            (nodes (FileNode f)) /\
         Type_.Fields t' = getFields st
  else Type_.Package t' = Type_.Package t /\
       Type_.Fields t' = Type_.Fields t.
Proof.
  intros Hread Hparse. split; [intros x t0; apply inspector_other|].
  destruct (Parse_located t fileName Hread Hparse) as [r [Lr Hr]].
  cbv zeta. rewrite (Hr t eq_refl). cbn [fst].
  pose proof Lr as Hd. apply Located_declares in Hd. rewrite Hd.
  destruct r as [[package fields]|]; [|split; reflexivity].
  destruct Lr as [-> [assign [st [Hin ->]]]].
  split; [reflexivity|]. exists assign, st.
  cbn [flat_map] in Hin. rewrite app_nil_r in Hin.
  split; [exact Hin | reflexivity].
Qed.

Lemma C8_struct_declarations_at_any_depth_witness :
  (forall x t0, structSpec (Type_.Name t0) x = false ->
                @inspector samples.library samples.localOnlyFile (Some x) t0
                = (true, t0)) /\
  let t' := fst (@Parse samples.library (NewType "Config") "local.go") in
  if declaresStruct "Config" (FileNode samples.localOnlyFile)
  then Type_.Package t' = "main" /\
       exists assign st,
         In (TypeSpec "Config" assign (StructType st))
            (nodes (FileNode samples.localOnlyFile)) /\
         Type_.Fields t' = @getFields samples.library st
  else Type_.Package t' = "" /\ Type_.Fields t' = [].
Proof.
  eapply (@C8_struct_declarations_at_any_depth samples.library
            (NewType "Config") "local.go" _ samples.localOnlyFile);
    reflexivity.
Defined.

(** C8 as stated fails: in a file whose only declaration at top level is
    a function, the struct declared in the body of the function under
    the requested name populates Package and Fields. *)
Lemma C8_counterexample :
  declaresTopLevel "Config" samples.localOnlyFile = false /\
  @Parse samples.library (NewType "Config") "local.go"
  = ({| Type_.FileName := "local.go"; Type_.Name := "Config";
        Type_.Fields :=
          [ {| Field.Name := "X"; Field.Type_ := "int"; Field.EnvTag := "X";
               Field.IsPointer := false; Field.IsArray := false |} ];
        Type_.Package := "main" |}, None).
Proof. split; reflexivity. Qed.

(** C2 on the code.  In a file that declares [Config] as a struct with
    the field Host and then, in the body of a function, a local [Config]
    with the field X, the traversal goes on after the first match and the
    receiver ends with the fields of the second declaration. *)
Theorem C2_later_declaration_overwrites :
  ast.Decls samples.shadowFile
  = [ GenDecl TYPE [ TypeSpec "Config" false (StructType [samples.hostField]) ];
      samples.localConfig ] /\
  Type_.Fields (fst (@Parse samples.library (NewType "Config") "shadow.go"))
  = @getFields samples.library [samples.xField] /\
  Type_.Fields (fst (@Parse samples.library (NewType "Config") "shadow.go"))
  <> @getFields samples.library [samples.hostField].
Proof. repeat split. discriminate. Qed.

(* ================================================================== *)
(** ** Further properties of the parser *)

Module morefacts.
Import strings vocab.

Lemma dropWhile_head (p : ascii -> bool) (s : string) :
  headIs p (dropWhile p s) = false.
Proof.
  induction s as [|c s IH]; [reflexivity|].
  cbn [dropWhile]. destruct (p c) eqn:Hc; [exact IH | exact Hc].
Qed.

Lemma dropWhile_suffix (p : ascii -> bool) (s : string) :
  exists pre, s = pre ++ dropWhile p s.
Proof.
  induction s as [|c s [pre IH]]; [exists ""; reflexivity|].
  cbn [dropWhile]. destruct (p c).
  - exists (String c pre). cbn [append]. rewrite <- IH. reflexivity.
  - exists "". reflexivity.
Qed.

Lemma dropSpace_suffix_le m2 m3 (n : nat) : forall s,
  String.length s <= n -> exists pre, s = pre ++ dropSpace m2 m3 s.
Proof.
  induction n as [|n IH]; intros s Hn.
  - destruct s; [exists ""; reflexivity | simpl in Hn; lia].
  - destruct s as [|a s1]; [exists ""; reflexivity|].
    simpl in Hn. cbn [dropSpace].
    destruct (asciiSpace a).
    { destruct (IH s1) as [pre Hpre]; [lia|].
      exists (String a pre). cbn [append]. rewrite <- Hpre. reflexivity. }
    destruct s1 as [|b s2]; [exists ""; reflexivity|].
    simpl in Hn. destruct (m2 a b).
    { destruct (IH s2) as [pre Hpre]; [lia|].
      exists (String a (String b pre)). cbn [append]. rewrite <- Hpre.
      reflexivity. }
    destruct s2 as [|c s3]; [exists ""; reflexivity|].
    simpl in Hn. destruct (m3 a b c); [|exists ""; reflexivity].
    destruct (IH s3) as [pre Hpre]; [lia|].
    exists (String a (String b (String c pre))). cbn [append].
    rewrite <- Hpre. reflexivity.
Qed.

Lemma dropSpace_suffix m2 m3 (s : string) :
  exists pre, s = pre ++ dropSpace m2 m3 s.
Proof. apply (dropSpace_suffix_le m2 m3 (n := String.length s)). lia. Qed.

Lemma rev_app (a b : string) : rev (a ++ b) = rev b ++ rev a.
Proof.
  induction a as [|c a IH]; cbn [append].
  - symmetry. apply stringsfacts.append_nil_r.
  - rewrite !stringsfacts.rev_cons, IH, stringsfacts.append_assoc. reflexivity.
Qed.

Lemma rev_involutive (s : string) : rev (rev s) = s.
Proof.
  induction s as [|c s IH]; [reflexivity|].
  rewrite stringsfacts.rev_cons, rev_app, IH. reflexivity.
Qed.

Lemma trimRightSpace_prefix (s : string) :
  exists post, s = trimRightSpace s ++ post.
Proof.
  unfold trimRightSpace.
  destruct (dropSpace_suffix (fun a b => space2 b a)
              (fun a b c => space3 c b a) (rev s)) as [pre Hpre].
  exists (rev pre).
  rewrite <- rev_app, <- Hpre. symmetry. apply rev_involutive.
Qed.

Lemma length_append (a b : string) :
  String.length (a ++ b) = String.length a + String.length b.
Proof. induction a as [|c a IH]; simpl; [reflexivity | rewrite IH; reflexivity]. Qed.

(** A cleaned type is a part of the type as written. *)
Lemma cleanTypeStr_part (typ : string) :
  exists pre post, typ = pre ++ parser.cleanTypeStr typ ++ post.
Proof.
  unfold parser.cleanTypeStr, TrimSpace, TrimLeft, trimLeftSpace.
  destruct (dropSpace_suffix space2 space3 typ) as [p1 H1].
  set (s1 := dropSpace space2 space3 typ) in *.
  destruct (trimRightSpace_prefix s1) as [q H2].
  set (s2 := trimRightSpace s1) in *.
  destruct (dropWhile_suffix (containsByte "*") s2) as [p3 H3].
  set (s3 := dropWhile (containsByte "*") s2) in *.
  destruct (dropWhile_suffix (containsByte "[]") s3) as [p4 H4].
  exists (p1 ++ p3 ++ p4), q.
  rewrite H1 at 1. rewrite H2 at 1. rewrite H3 at 1. rewrite H4 at 1.
  rewrite !stringsfacts.append_assoc. reflexivity.
Qed.

Lemma cleanTypeStr_head (typ : string) :
  headIs (containsByte "[]") (parser.cleanTypeStr typ) = false.
Proof. unfold parser.cleanTypeStr, TrimLeft. apply dropWhile_head. Qed.

Lemma isArray_head (s : string) :
  parser.isArray s = true -> headIs (containsByte "[]") s = true.
Proof.
  intros Hs. apply parserfacts.isArray_spec in Hs as [_ [rest ->]]. reflexivity.
Qed.

Lemma isPointer_not_isArray (s : string) :
  parser.isPointer s = true -> parser.isArray s = false.
Proof.
  intros Hp. apply parserfacts.isPointer_spec in Hp as [rest ->].
  destruct rest as [|b [|c rest]]; reflexivity.
Qed.

Section Records.
Context `{Library}.
Import ast.

(** The records of an entry of a struct are among those of the struct. *)
Lemma getFields_entry_In (node : list ast.Field) (field : ast.Field)
      (r : parser.Field.t) :
  In field node -> In r (parser.getFields [field]) ->
  In r (parser.getFields node).
Proof.
  intros Hf Hr. apply in_split in Hf as [pre [post ->]].
  rewrite parserfacts.getFields_split.
  apply in_or_app. right. apply in_or_app. left. exact Hr.
Qed.

Lemma getFields_entry_names (field : ast.Field) :
  map parser.Field.Name (parser.getFields [field]) = recordNames field.
Proof.
  destruct field as [[|name names] type tag]; [reflexivity|].
  unfold parser.getFields, recordNames. cbn [fold_left Names].
  rewrite parserfacts.appendFields_named. cbn [app].
  rewrite map_map. cbn [parser.Field.Name]. apply map_id.
Qed.

End Records.

Lemma trimRightSpace_cons (z : ascii) (t : string) :
  asciiSpace z = false ->
  (forall a, space2 z a = false) ->
  (forall a b, space3 z a b = false /\ space3 a z b = false) ->
  trimRightSpace (String z t) = String z (trimRightSpace t).
Proof.
  intros Hz H2 H3. unfold trimRightSpace.
  rewrite stringsfacts.rev_cons, stringsfacts.dropSpace_snoc, stringsfacts.rev_snoc.
  - reflexivity.
  - exact Hz.
  - intros a. apply H2.
  - intros a b. split; apply (H3 b a).
Qed.

Lemma trimRightSpace_star (t : string) :
  trimRightSpace (String "*" t) = String "*" (trimRightSpace t).
Proof.
  apply trimRightSpace_cons.
  - reflexivity.
  - intros a. reflexivity.
  - intros a b. unfold space3. split; [reflexivity|].
    simpl. rewrite !andb_false_r. reflexivity.
Qed.

Lemma trimRightSpace_close (t : string) :
  trimRightSpace (String "]" t) = String "]" (trimRightSpace t).
Proof.
  apply trimRightSpace_cons.
  - reflexivity.
  - intros a. reflexivity.
  - intros a b. unfold space3. split; [reflexivity|].
    simpl. rewrite !andb_false_r. reflexivity.
Qed.

Lemma trimLeftSpace_star (t : string) :
  trimLeftSpace (String "*" t) = String "*" t.
Proof. destruct t as [|b [|c t]]; reflexivity. Qed.

(** Cleaning a pointer type cleans the type pointed to. *)
Lemma cleanTypeStr_star (t : string) :
  trimLeftSpace t = t ->
  parser.cleanTypeStr (String "*" t) = parser.cleanTypeStr t.
Proof.
  intros Ht. unfold parser.cleanTypeStr, TrimSpace.
  rewrite trimLeftSpace_star, trimRightSpace_star, Ht. reflexivity.
Qed.

(** Cleaning a slice type trims the brackets of the element type as
    written, and no pointer marker there. *)
Lemma cleanTypeStr_slice (t : string) :
  parser.cleanTypeStr (String "[" (String "]" t))
  = TrimLeft (trimRightSpace t) "[]".
Proof.
  rewrite parserfacts.cleanTypeStr_bracket, trimRightSpace_close. reflexivity.
Qed.

Section Tags.
Context `{Library}.

Lemma Lookup_pairText (key : string) (kv : string * string) (rest : string) :
  wellFormed kv = true ->
  reflect.Lookup (pairText kv ++ rest) key
  = if String.eqb key (fst kv) then Some (snd kv) else reflect.Lookup rest key.
Proof.
  destruct kv as [k v]. unfold wellFormed, pairText. cbn [fst snd]. intros Hkv.
  apply andb_true_iff in Hkv as [Hkv Hv].
  apply andb_true_iff in Hkv as [Hk Hn].
  destruct k as [|c n]; [discriminate|].
  rewrite stringsfacts.append_assoc. cbn [append].
  rewrite stringsfacts.append_assoc. cbn [append].
  apply (reflectfacts.Lookup_pair key c n v rest Hn Hv).
Qed.

(** Looking a key up in the text of well-formed pairs gives the value of
    the first pair under the key. *)
Lemma Lookup_render (key : string) (pairs : list (string * string)) :
  forallb wellFormed pairs = true ->
  reflect.Lookup (render pairs) key = first key pairs.
Proof.
  induction pairs as [|kv pairs IH]; [reflexivity|].
  cbn [forallb]. intros Hall. apply andb_true_iff in Hall as [Hkv Hall].
  specialize (IH Hall).
  assert (Hstep : forall rest,
            reflect.Lookup (pairText kv ++ rest) key
            = if String.eqb key (fst kv) then Some (snd kv)
              else reflect.Lookup rest key)
    by (intros rest; apply Lookup_pairText; exact Hkv).
  destruct kv as [k v]. cbn [fst snd first] in *.
  destruct pairs as [|kv2 pairs].
  - cbn [render]. rewrite <- (stringsfacts.append_nil_r (pairText (k, v))).
    rewrite Hstep. reflexivity.
  - change (render ((k, v) :: kv2 :: pairs))
      with (pairText (k, v) ++ String " " (render (kv2 :: pairs))).
    rewrite Hstep.
    change (reflect.Lookup (String " " (render (kv2 :: pairs))) key)
      with (reflect.Lookup (render (kv2 :: pairs)) key).
    rewrite IH. reflexivity.
Qed.

End Tags.

Lemma pairText_last (kv : string * string) :
  exists x, pairText kv = x ++ String "034" "".
Proof.
  exists (fst kv ++ String ":" (String "034" (snd kv))).
  unfold pairText. rewrite stringsfacts.append_assoc. reflexivity.
Qed.

Lemma render_last (pairs : list (string * string)) :
  pairs <> [] -> exists x, render pairs = x ++ String "034" "".
Proof.
  induction pairs as [|kv pairs IH]; [congruence|]. intros _.
  destruct pairs as [|kv2 pairs]; [apply pairText_last|].
  destruct IH as [x Hx]; [discriminate|].
  exists (pairText kv ++ String " " x).
  change (render (kv :: kv2 :: pairs))
    with (pairText kv ++ String " " (render (kv2 :: pairs))).
  rewrite Hx, stringsfacts.append_assoc. reflexivity.
Qed.

(** The back quotes around a tag text that neither begins nor ends with
    one are all that [Trim] removes. *)
Lemma Trim_backquotes (s : string) :
  s = "" \/ (exists x, s = x ++ String "034" "") ->
  headIs (containsByte "`") s = false ->
  Trim (String "`" (s ++ "`")) "`" = s.
Proof.
  intros Hs Hhead. unfold Trim, TrimRight, TrimLeft.
  rewrite stringsfacts.rev_cons, stringsfacts.rev_snoc.
  cbn [append dropWhile containsByte]. rewrite Ascii.eqb_refl. cbn [orb].
  destruct Hs as [->|[x ->]]; [reflexivity|].
  rewrite stringsfacts.rev_snoc. cbn [append dropWhile containsByte].
  change (Ascii.eqb "034" "`") with false. cbn [orb].
  rewrite stringsfacts.rev_cons, stringsfacts.rev_snoc, rev_involutive.
  cbn [append dropWhile containsByte]. rewrite Ascii.eqb_refl. cbn [orb].
  destruct (x ++ String "034" "") as [|c s'] eqn:E; [reflexivity|].
  cbn [headIs containsByte] in Hhead. cbn [dropWhile]. rewrite Hhead.
  reflexivity.
Qed.

Section Traversal.
Context `{Library}.
Import ast.
Variable f : ast.File.
Variable name : string.

(** Trees in which no node declares the struct leave the receiver as it
    is. *)
Lemma walkAll_undeclared (l : list Node) :
  (forall n, In n l -> locate.declaresStruct name n = false) ->
  forall t, parser.Type_.Name t = name ->
    walkAll (parser.inspector f) l t = t.
Proof.
  induction l as [|n l IH]; intros Hl t Ht; [reflexivity|].
  unfold walkAll. cbn [fold_left].
  fold (walkAll (parser.inspector f) l (Walk (parser.inspector f) n t)).
  destruct (parserfacts.Walk_inspector f name n) as [r [Lr Hr]].
  pose proof Lr as Hd. apply Located_declares in Hd.
  rewrite (Hl n (or_introl eq_refl)) in Hd.
  destruct r as [x|]; [discriminate|].
  rewrite (Hr t Ht). cbn [locate.fill].
  apply IH; [intros m Hm; apply Hl; right; exact Hm | exact Ht].
Qed.

(** Any trees leave the receiver as it is or fill it. *)
Lemma walkAll_fill (l : list Node) :
  exists r, forall t, parser.Type_.Name t = name ->
    walkAll (parser.inspector f) l t = locate.fill r t.
Proof.
  assert (Hall : Forall (fun c => exists r, locate.Located f name [c] r /\
            forall t, parser.Type_.Name t = name ->
                      Walk (parser.inspector f) c t = locate.fill r t) l)
    by (apply Forall_forall; intros n _; apply parserfacts.Walk_inspector).
  apply parserfacts.walkAll_inspector in Hall as [r [_ Hr]].
  exists r. exact Hr.
Qed.

(** At a declaration of the struct the receiver is filled from it,
    whatever the tree below holds. *)
Lemma Walk_matched (assign : bool) (st : list ast.Field) (t : parser.Type_.t) :
  parser.Type_.Name t = name ->
  Walk (parser.inspector f) (TypeSpec name assign (StructType st)) t
  = locate.fill (Some (ast.Name f, parser.getFields st)) t.
Proof.
  intros Ht. rewrite astfacts.Walk_children. unfold visiting.
  cbn [parser.inspector parser.getStruct]. rewrite Ht, String.eqb_refl.
  reflexivity.
Qed.

Lemma Walk_GenDecl (tok : Token) (specs : list Node) (t : parser.Type_.t) :
  Walk (parser.inspector f) (GenDecl tok specs) t
  = walkAll (parser.inspector f) specs t.
Proof. rewrite astfacts.Walk_children. reflexivity. Qed.

Lemma Walk_FileNode (g : ast.File) (t : parser.Type_.t) :
  Walk (parser.inspector f) (FileNode g) t
  = walkAll (parser.inspector f) (Decls g) t.
Proof. rewrite astfacts.Walk_children. reflexivity. Qed.

End Traversal.



Section Upper.

Lemma upperByte_not_lower (c : ascii) : lowerByte (upperByte c) = false.
Proof.
  unfold upperByte, lowerByte.
  destruct (Nat.leb 97 (nat_of_ascii c) && Nat.leb (nat_of_ascii c) 122) eqn:Hc;
    [|exact Hc].
  apply andb_true_iff in Hc as [Hlo Hhi].
  apply Nat.leb_le in Hlo, Hhi.
  rewrite nat_ascii_embedding by lia.
  apply andb_false_iff. left. apply Nat.leb_gt. lia.
Qed.

Lemma upperByte_ascii (c : ascii) :
  Nat.ltb (nat_of_ascii (upperByte c)) 128 = Nat.ltb (nat_of_ascii c) 128.
Proof.
  unfold upperByte.
  destruct (Nat.leb 97 (nat_of_ascii c) && Nat.leb (nat_of_ascii c) 122) eqn:Hc;
    [|reflexivity].
  apply andb_true_iff in Hc as [Hlo Hhi].
  apply Nat.leb_le in Hlo, Hhi.
  rewrite nat_ascii_embedding by lia.
  transitivity true; [|symmetry]; apply Nat.ltb_lt; lia.
Qed.

Lemma upperByte_idem (c : ascii) : upperByte (upperByte c) = upperByte c.
Proof.
  pose proof (upperByte_not_lower c) as Hc. unfold lowerByte in Hc.
  unfold upperByte at 1. rewrite Hc. reflexivity.
Qed.

Lemma mapBytes_upper (s : string) :
  String.length (mapBytes upperByte s) = String.length s /\
  forallb (fun c => negb (lowerByte c))
          (list_ascii_of_string (mapBytes upperByte s)) = true /\
  isASCII (mapBytes upperByte s) = isASCII s /\
  mapBytes upperByte (mapBytes upperByte s) = mapBytes upperByte s.
Proof.
  unfold isASCII.
  induction s as [|c s (Hlen & Hlow & Hasc & Hidem)]; [repeat split|].
  cbn [mapBytes String.length list_ascii_of_string forallb].
  rewrite Hlen, Hlow, Hasc, Hidem, upperByte_not_lower, upperByte_ascii,
    upperByte_idem.
  repeat split.
Qed.

End Upper.

End morefacts.

(* ================================================================== *)
(** ** Further properties: the records *)

Import vocab morefacts.

(** X1.  No record of a struct is flagged both as a pointer and as an
    array: [isPointer] wants '*' as the first byte, [isArray] wants
    '['. *)
Theorem X1_flags_exclusive `{Library} (node : list ast.Field) (r : Field.t) :
  In r (getFields node) ->
  Field.IsPointer r && Field.IsArray r = false.
Proof.
  intros Hr. destruct (getFields_In node r Hr) as [field [_ Hentry]].
  destruct (getFields_entry_type field r Hentry) as (_ & -> & ->).
  destruct (isPointer (types.ExprString (ast.Type_ field))) eqn:Hp;
    [|reflexivity].
  rewrite (isPointer_not_isArray _ Hp). reflexivity.
Qed.

Lemma X1_flags_exclusive_witness : true && false = false.
Proof.
  apply (@X1_flags_exclusive samples.library samples.configFields
           (Field.mk "Port" "int" "PORT" true false)).
  right. left. reflexivity.
Defined.

(** X2.  The cleaned Type of a record never begins with '[' or ']', so
    that [isArray] does not hold of it; it is a part of the type as
    written in the field entry the record comes from, and no longer
    than it. *)
Theorem X2_cleaned_type `{Library} (node : list ast.Field) (r : Field.t) :
  In r (getFields node) ->
  headIs (strings.containsByte "[]") (Field.Type_ r) = false /\
  isArray (Field.Type_ r) = false /\
  exists field pre post,
    In field node /\
    In r (getFields [field]) /\
    types.ExprString (ast.Type_ field) = pre ++ Field.Type_ r ++ post /\
    String.length (Field.Type_ r)
    <= String.length (types.ExprString (ast.Type_ field)).
Proof.
  intros Hr. destruct (getFields_In node r Hr) as [field [Hfield Hentry]].
  destruct (getFields_entry_type field r Hentry) as (Hty & _ & _).
  pose proof (cleanTypeStr_head (types.ExprString (ast.Type_ field))) as Hh.
  rewrite <- Hty in Hh.
  split; [exact Hh|]. split.
  - destruct (isArray _) eqn:Ha; [|reflexivity].
    apply isArray_head in Ha. congruence.
  - destruct (cleanTypeStr_part (types.ExprString (ast.Type_ field)))
      as [pre [post Hpart]].
    rewrite <- Hty in Hpart.
    exists field, pre, post. split; [exact Hfield|]. split; [exact Hentry|].
    split; [exact Hpart|].
    rewrite Hpart, !length_append. lia.
Qed.

Lemma X2_cleaned_type_witness :
  headIs (strings.containsByte "[]") "byte" = false /\
  isArray "byte" = false /\
  exists field pre post,
    In field [samples.hostField; samples.bytesField] /\
    In (Field.mk "data" "byte" "DATA" true false)
       (@getFields samples.library [field]) /\
    types.ExprString (ast.Type_ field) = pre ++ "byte" ++ post /\
    String.length "byte" <= String.length (types.ExprString (ast.Type_ field)).
Proof.
  apply (@X2_cleaned_type samples.library [samples.hostField; samples.bytesField]
           (Field.mk "data" "byte" "DATA" true false)).
  right. left. reflexivity.
Defined.

(** X3.  A field of a pointer type gives records flagged as pointers and
    not as arrays, whatever the type pointed to; their cleaned Type is
    the cleaned type pointed to, when that is written without white
    space in front. *)
Theorem X3_pointer_field `{Library} (node : list ast.Field)
        (names : list string) (x : ast.Node) (tag : option string)
        (r : Field.t) :
  In (mkField names (StarExpr x) tag) node ->
  In r (getFields [mkField names (StarExpr x) tag]) ->
  In r (getFields node) /\
  Field.IsPointer r = true /\ Field.IsArray r = false /\
  (strings.trimLeftSpace (types.ExprString x) = types.ExprString x ->
   Field.Type_ r = cleanTypeStr (types.ExprString x)).
Proof.
  intros Hfield Hr. split; [apply (getFields_entry_In _ _ _ Hfield Hr)|].
  destruct (getFields_entry_type _ r Hr) as (-> & -> & ->).
  cbn [ast.Type_].
  change (types.ExprString (StarExpr x)) with (String "*" (types.ExprString x)).
  split; [reflexivity|]. split.
  - apply isPointer_not_isArray. reflexivity.
  - intros Hx. apply cleanTypeStr_star, Hx.
Qed.

Lemma X3_pointer_field_witness :
  In (Field.mk "data" "byte" "DATA" true false)
     (@getFields samples.library [samples.bytesField]) /\
  true = true /\ false = false /\
  (strings.trimLeftSpace "[]byte" = "[]byte" -> "byte" = cleanTypeStr "[]byte").
Proof.
  apply (@X3_pointer_field samples.library [samples.bytesField] ["data"]
           (ArrayType None (Ident "byte")) None
           (Field.mk "data" "byte" "DATA" true false));
    left; reflexivity.
Defined.

(** X4.  A field of a slice type whose element type is written gives
    records flagged as arrays and not as pointers; their cleaned Type is
    the element type as written, without trailing white space and
    without the brackets in front, and with the pointer marker it may
    begin with. *)
Theorem X4_slice_field `{Library} (node : list ast.Field)
        (names : list string) (elt : ast.Node) (tag : option string)
        (r : Field.t) :
  In (mkField names (ArrayType None elt) tag) node ->
  In r (getFields [mkField names (ArrayType None elt) tag]) ->
  types.ExprString elt <> "" ->
  In r (getFields node) /\
  Field.IsArray r = true /\ Field.IsPointer r = false /\
  Field.Type_ r
  = strings.TrimLeft (strings.trimRightSpace (types.ExprString elt)) "[]".
Proof.
  intros Hfield Hr Helt. split; [apply (getFields_entry_In _ _ _ Hfield Hr)|].
  destruct (getFields_entry_type _ r Hr) as (-> & -> & ->).
  cbn [ast.Type_].
  change (types.ExprString (ArrayType None elt))
    with (String "[" (String "]" (types.ExprString elt))).
  split; [|split; [reflexivity | apply cleanTypeStr_slice]].
  destruct (types.ExprString elt) as [|c e]; [congruence | reflexivity].
Qed.

Lemma X4_slice_field_witness :
  In (Field.mk "Tags" "string" "TAGS" false true)
     (@getFields samples.library samples.configFields) /\
  true = true /\ false = false /\
  "string" = strings.TrimLeft (strings.trimRightSpace "string") "[]".
Proof.
  apply (@X4_slice_field samples.library samples.configFields ["Tags"]
           (Ident "string") None (Field.mk "Tags" "string" "TAGS" false true)).
  - right. right. left. reflexivity.
  - left. reflexivity.
  - discriminate.
Defined.

Lemma flags_of_head (c : ascii) (s : string) :
  c <> "*"%char -> c <> "["%char ->
  isPointer (String c s) = false /\ isArray (String c s) = false.
Proof.
  intros Hstar Hopen. split.
  - destruct (isPointer (String c s)) eqn:Hp; [|reflexivity].
    apply isPointer_spec in Hp as [rest Hp]. congruence.
  - destruct (isArray (String c s)) eqn:Ha; [|reflexivity].
    apply isArray_spec in Ha as [_ [rest Ha]]. congruence.
Qed.

(** X5.  A field whose type is a map, function, struct or interface
    type, a parenthesised type or a function literal gives records with
    both flags false. *)
Theorem X5_keyword_type_field `{Library} (node : list ast.Field)
        (field : ast.Field) (r : Field.t) :
  In field node ->
  In r (getFields [field]) ->
  keywordType (ast.Type_ field) = true ->
  In r (getFields node) /\
  Field.IsPointer r = false /\ Field.IsArray r = false.
Proof.
  intros Hfield Hr Hk. split; [apply (getFields_entry_In _ _ _ Hfield Hr)|].
  destruct (getFields_entry_type _ r Hr) as (_ & -> & ->).
  destruct (ast.Type_ field); try discriminate;
    cbn [types.ExprString append]; apply flags_of_head; discriminate.
Qed.

Lemma X5_keyword_type_field_witness :
  In (Field.mk "m" "map[string]int" "M" false false)
     (@getFields samples.library
        [mkField ["m"] (MapType (Ident "string") (Ident "int")) None]) /\
  false = false /\ false = false.
Proof.
  apply (@X5_keyword_type_field samples.library
           [mkField ["m"] (MapType (Ident "string") (Ident "int")) None]
           (mkField ["m"] (MapType (Ident "string") (Ident "int")) None)
           (Field.mk "m" "map[string]int" "M" false false));
    try (left; reflexivity). reflexivity.
Defined.

(** X6.  The records of a struct go by the names of its field entries in
    the order of the declaration, an embedded field standing for the one
    empty name: there are as many records as names, and no record exactly
    when the struct has no field entry. *)
Theorem X6_record_names `{Library} (node : list ast.Field) :
  map Field.Name (getFields node) = flat_map recordNames node /\
  List.length (getFields node) = List.length (flat_map recordNames node) /\
  (getFields node = [] <-> node = []).
Proof.
  assert (Hnames : map Field.Name (getFields node) = flat_map recordNames node).
  { induction node as [|field node IH]; [reflexivity|].
    rewrite getFields_cons, map_app, IH, getFields_entry_names. reflexivity. }
  split; [exact Hnames|]. split.
  - rewrite <- Hnames. symmetry. apply length_map.
  - split; [|intros ->; reflexivity].
    destruct node as [|field node]; [reflexivity|].
    rewrite getFields_cons. intros Hnil. apply app_eq_nil in Hnil as [Hnil _].
    destruct (getFields_entry_nonempty field Hnil).
Qed.

(** X7.  For a field whose tag is, between back quotes, the text of
    well-formed pairs that does not begin with a back quote, the EnvTag
    of a record is the value of the first pair under the key [env],
    whatever the other pairs and their order; with no such pair it is
    the upper-cased fallback key. *)
Theorem X7_tag_pairs `{Library} (node : list ast.Field)
        (names : list string) (type : ast.Node)
        (pairs : list (string * string)) (r : Field.t) :
  let field := mkField names type (Some (String "`" (render pairs ++ "`"))) in
  In field node ->
  In r (getFields [field]) ->
  forallb wellFormed pairs = true ->
  headIs (strings.containsByte "`") (render pairs) = false ->
  In r (getFields node) /\
  Field.EnvTag r =
  match first "env" pairs with
  | Some value => value
  | None =>
      strings.ToUpper
        match names with
        | [] => types.ExprString type
        | _ :: _ => Field.Name r
        end
  end.
Proof.
  cbv zeta. intros Hfield Hr Hwf Hhead.
  split; [apply (getFields_entry_In _ _ _ Hfield Hr)|].
  pose proof (getFields_entry_tag _ r Hr) as Htag.
  cbv zeta in Htag. cbn [ast.Tag ast.Names ast.Type_] in Htag.
  rewrite Trim_backquotes in Htag; [| |exact Hhead].
  - unfold getEnvSourceTag in Htag. rewrite (Lookup_render "env" pairs Hwf) in Htag.
    destruct names as [|n ns]; destruct Htag as [_ ->]; reflexivity.
  - destruct pairs as [|kv pairs]; [left; reflexivity|].
    right. apply render_last. discriminate.
Qed.

Lemma X7_tag_pairs_witness :
  In (Field.mk "Key" "string" "custom_Key" false false)
     (@getFields samples.library [samples.keyField]) /\
  "custom_Key" =
  match first "env" [("json", "key"); ("env", "custom_Key")] with
  | Some value => value
  | None => @strings.ToUpper samples.library "Key"
  end.
Proof.
  apply (@X7_tag_pairs samples.library [samples.keyField] ["Key"]
           (Ident "string") [("json", "key"); ("env", "custom_Key")]
           (Field.mk "Key" "string" "custom_Key" false false));
    try (left; reflexivity); reflexivity.
Defined.

(** X8.  When the tag of a field holds no [env] key and the fallback key
    is ASCII text, the EnvTag has the length of the key and no lower-case
    letter, and it is its own upper-casing. *)
Theorem X8_fallback_is_upper_case `{Library} (tags key : string) :
  reflect.Lookup tags "env" = None ->
  strings.isASCII key = true ->
  String.length (getEnvSourceTag tags key) = String.length key /\
  forallb (fun c => negb (lowerByte c))
          (list_ascii_of_string (getEnvSourceTag tags key)) = true /\
  getEnvSourceTag tags (getEnvSourceTag tags key) = getEnvSourceTag tags key.
Proof.
  intros Hno Hkey. unfold getEnvSourceTag. rewrite Hno.
  unfold strings.ToUpper at 1 2 4. rewrite Hkey.
  destruct (mapBytes_upper key) as (Hlen & Hlow & Hasc & Hidem).
  split; [exact Hlen|]. split; [exact Hlow|].
  unfold strings.ToUpper. rewrite Hasc, Hkey. exact Hidem.
Qed.

Lemma X8_fallback_is_upper_case_witness :
  String.length (@getEnvSourceTag samples.library "" "io.Writer")
  = String.length "io.Writer" /\
  forallb (fun c => negb (lowerByte c))
          (list_ascii_of_string (@getEnvSourceTag samples.library "" "io.Writer"))
  = true /\
  @getEnvSourceTag samples.library ""
    (@getEnvSourceTag samples.library "" "io.Writer")
  = @getEnvSourceTag samples.library "" "io.Writer".
Proof.
  apply (@X8_fallback_is_upper_case samples.library "" "io.Writer");
    reflexivity.
Defined.

(* ================================================================== *)
(** ** Further properties: [Parse] *)

(** X9.  On every path [Parse] leaves the Name of the receiver as it was
    and sets its FileName to the argument; it returns nil exactly when
    the file is read and parsed. *)
Theorem X9_parse_name_and_file `{Library} (t : Type_.t) (fileName : string) :
  Type_.Name (fst (Parse t fileName)) = Type_.Name t /\
  Type_.FileName (fst (Parse t fileName)) = fileName /\
  (snd (Parse t fileName) = None <->
   exists content f,
     ReadFile fileName = Ok content /\ ParseFile fileName content = Ok f).
Proof.
  destruct (ReadFile fileName) as [content|e] eqn:Hread.
  - destruct (ParseFile fileName content) as [f|e] eqn:Hparse.
    + destruct (Parse_located t fileName Hread Hparse) as [r [_ Hr]].
      rewrite (Hr t eq_refl). cbn [fst snd].
      split; [rewrite fill_Name; reflexivity|].
      split; [destruct r as [[package fields]|]; reflexivity|].
      split; [intros _; exists content, f; split; trivial | reflexivity].
    + rewrite (Parse_syntax_error t fileName Hread Hparse). cbn [fst snd].
      repeat split; try discriminate.
      intros [content' [f [[= <-] Hf]]]. congruence.
  - rewrite (Parse_read_error t fileName Hread). cbn [fst snd].
    repeat split; try discriminate.
    intros [content [f [Hc _]]]. discriminate.
Qed.

Lemma walkAll_cons {S : Type} (v : option ast.Node -> S -> bool * S)
      (n : ast.Node) (l : list ast.Node) (s : S) :
  walkAll v (n :: l) s = walkAll v l (Walk v n s).
Proof. reflexivity. Qed.

(** X10.  When a top-level declaration of the file declares a struct
    under the Name of the receiver and no node after it in that
    declaration or in the declarations that follow does, [Parse] returns
    nil and the receiver holds the package of the file and the records of
    that struct, whatever the declarations before it and the tree below
    it hold, and whatever Package and Fields held. *)
Theorem X10_last_top_level_declaration `{Library} (t : Type_.t)
        (fileName content : string) (f : ast.File)
        (pre post before after : list ast.Node) (tok : ast.Token)
        (assign : bool) (st : list ast.Field) :
  ReadFile fileName = Ok content ->
  ParseFile fileName content = Ok f ->
  ast.Decls f
  = (pre ++
     GenDecl tok
       (before ++ TypeSpec (Type_.Name t) assign (StructType st) :: after)
     :: post)%list ->
  forallb (fun n => negb (declaresStruct (Type_.Name t) n)) (after ++ post)%list
  = true ->
  Parse t fileName
  = ({| Type_.FileName := fileName; Type_.Name := Type_.Name t;
        Type_.Fields := getFields st; Type_.Package := ast.Name f |}, None).
Proof.
  intros Hread Hparse Hdecls Hlast.
  assert (Hafter : forall l, incl l (after ++ post)%list ->
            forall n, In n l -> declaresStruct (Type_.Name t) n = false).
  { intros l Hl n Hn. rewrite forallb_forall in Hlast.
    apply negb_true_iff, Hlast, Hl, Hn. }
  unfold Parse, Inspect. rewrite Hread, Hparse.
  set (t0 := Type_.setFileName t fileName).
  assert (Ht0 : Type_.Name t0 = Type_.Name t) by reflexivity.
  rewrite Walk_FileNode, Hdecls, astfacts.walkAll_app.
  destruct (walkAll_fill f (Type_.Name t) pre) as [r1 Hr1].
  rewrite (Hr1 t0 Ht0).
  rewrite walkAll_cons, Walk_GenDecl, astfacts.walkAll_app.
  destruct (walkAll_fill f (Type_.Name t) before) as [r2 Hr2].
  rewrite Hr2 by (rewrite fill_Name; exact Ht0).
  rewrite walkAll_cons.
  rewrite (Walk_matched f (name := Type_.Name t))
    by (rewrite !fill_Name; exact Ht0).
  rewrite (walkAll_undeclared f (name := Type_.Name t) after)
    by (first [ apply Hafter, incl_appl, incl_refl
              | rewrite !fill_Name; exact Ht0 ]).
  rewrite (walkAll_undeclared f (name := Type_.Name t) post)
    by (first [ apply Hafter, incl_appr, incl_refl
              | rewrite !fill_Name; exact Ht0 ]).
  rewrite !fill_fill.
  destruct r1 as [[p1 fs1]|]; destruct r2 as [[p2 fs2]|]; reflexivity.
Qed.

Lemma X10_last_top_level_declaration_witness :
  @Parse samples.library (NewType "Config") "config.go"
  = ({| Type_.FileName := "config.go"; Type_.Name := "Config";
        Type_.Fields := @getFields samples.library samples.configFields;
        Type_.Package := "main" |}, None).
Proof.
  eapply (@X10_last_top_level_declaration samples.library (NewType "Config")
            "config.go" _ samples.configFile [] [] [] [] TYPE false
            samples.configFields); reflexivity.
Defined.

(** X11.  On a file in which some node declares a struct under the Name
    of the receiver, the result of [Parse] depends on the receiver by its
    Name alone: FileName, Package and Fields are overwritten, so that a
    receiver that was used before gives what a new one gives. *)
Theorem X11_match_overwrites `{Library} (t1 t2 : Type_.t)
        (fileName content : string) (f : ast.File) :
  ReadFile fileName = Ok content ->
  ParseFile fileName content = Ok f ->
  Type_.Name t1 = Type_.Name t2 ->
  declaresStruct (Type_.Name t1) (FileNode f) = true ->
  Parse t1 fileName = Parse t2 fileName.
Proof.
  intros Hread Hparse Hname Hdecl.
  destruct (Parse_located t1 fileName Hread Hparse) as [r [Lr Hr]].
  apply Located_declares in Lr. rewrite Lr in Hdecl.
  destruct r as [[package fields]|]; [|discriminate].
  rewrite (Hr t1 eq_refl), (Hr t2 (eq_sym Hname)).
  unfold fill, Type_.setFields, Type_.setPackage, Type_.setFileName.
  cbn [Type_.FileName Type_.Name]. rewrite Hname. reflexivity.
Qed.

Lemma X11_match_overwrites_witness :
  @Parse samples.library
    (fst (@Parse samples.library (NewType "Config") "shadow.go")) "config.go"
  = @Parse samples.library (NewType "Config") "config.go".
Proof.
  eapply (@X11_match_overwrites samples.library
            (fst (@Parse samples.library (NewType "Config") "shadow.go"))
            (NewType "Config") "config.go" _ samples.configFile);
    reflexivity.
Defined.

(** X12.  When the struct declarations under the Name of the receiver, at
    any depth of the file, are all one and the same declaration, [Parse]
    returns nil and the receiver holds the package of the file and the
    records of that struct. *)
Theorem X12_only_declaration `{Library} (t : Type_.t)
        (fileName content : string) (f : ast.File)
        (assign : bool) (st : list ast.Field) :
  ReadFile fileName = Ok content ->
  ParseFile fileName content = Ok f ->
  In (TypeSpec (Type_.Name t) assign (StructType st)) (nodes (FileNode f)) ->
  (forall x, In x (nodes (FileNode f)) ->
             structSpec (Type_.Name t) x = true ->
             x = TypeSpec (Type_.Name t) assign (StructType st)) ->
  Parse t fileName
  = ({| Type_.FileName := fileName; Type_.Name := Type_.Name t;
        Type_.Fields := getFields st; Type_.Package := ast.Name f |}, None).
Proof.
  intros Hread Hparse Hin Honly.
  destruct (Parse_located t fileName Hread Hparse) as [r [Lr Hr]].
  rewrite (Hr t eq_refl).
  pose proof Lr as Hd. apply Located_declares in Hd.
  assert (Hdecl : declaresStruct (Type_.Name t) (FileNode f) = true).
  { apply existsb_exists. eexists. split; [exact Hin|].
    simpl. apply String.eqb_refl. }
  rewrite Hdecl in Hd. destruct r as [[package fields]|]; [|discriminate].
  destruct Lr as [-> [a' [st' [Hin' ->]]]].
  cbn [flat_map] in Hin'. rewrite app_nil_r in Hin'.
  assert (Heq : TypeSpec (Type_.Name t) a' (StructType st')
                = TypeSpec (Type_.Name t) assign (StructType st)).
  { apply Honly; [exact Hin'|]. simpl. apply String.eqb_refl. }
  injection Heq as _ ->. reflexivity.
Qed.

Lemma X12_only_declaration_witness :
  @Parse samples.library (NewType "Config") "local.go"
  = ({| Type_.FileName := "local.go"; Type_.Name := "Config";
        Type_.Fields := @getFields samples.library [samples.xField];
        Type_.Package := "main" |}, None).
Proof.
  eapply (@X12_only_declaration samples.library (NewType "Config")
            "local.go" _ samples.localOnlyFile false [samples.xField]).
  - reflexivity.
  - reflexivity.
  - vm_compute. tauto.
  - vm_compute. intros x Hx.
    repeat (destruct Hx as [<-|Hx]; [first [discriminate | reflexivity]|]).
    destruct Hx.
Defined.

Lemma dropWhile_snoc (p : ascii -> bool) (z : ascii) (u : string) :
  p z = false ->
  strings.dropWhile p (u ++ String z "") = strings.dropWhile p u ++ String z "".
Proof.
  intros Hz. induction u as [|c u IH]; cbn [append strings.dropWhile].
  - rewrite Hz. reflexivity.
  - destruct (p c); [exact IH | reflexivity].
Qed.

Lemma Trim_quoted (rest : string) :
  exists s, strings.Trim (String "034" rest) "`" = String "034" s.
Proof.
  unfold strings.Trim, strings.TrimRight, strings.TrimLeft.
  rewrite stringsfacts.rev_cons, dropWhile_snoc by reflexivity.
  rewrite stringsfacts.rev_snoc.
  eexists. reflexivity.
Qed.

(** X13.  A tag written between double quotes (an interpreted string
    literal) is not read: only back quotes are removed from the literal,
    the lookup stops at the double quote in front, and the EnvTag of
    every record of the field is the upper-cased fallback key, whatever
    the tag holds. *)
Theorem X13_double_quoted_tag `{Library} (node : list ast.Field)
        (names : list string) (type : ast.Node) (rest : string)
        (r : Field.t) :
  let field := mkField names type (Some (String "034" rest)) in
  In field node ->
  In r (getFields [field]) ->
  In r (getFields node) /\
  Field.EnvTag r =
  strings.ToUpper
    match names with
    | [] => types.ExprString type
    | _ :: _ => Field.Name r
    end.
Proof.
  cbv zeta. intros Hfield Hr.
  split; [apply (getFields_entry_In _ _ _ Hfield Hr)|].
  pose proof (getFields_entry_tag _ r Hr) as Htag.
  cbv zeta in Htag. cbn [ast.Tag ast.Names ast.Type_] in Htag.
  destruct (Trim_quoted rest) as [s Hs]. rewrite Hs in Htag.
  unfold getEnvSourceTag in Htag.
  change (reflect.Lookup (String "034" s) "env") with (@None string) in Htag.
  destruct names as [|n ns]; destruct Htag as [_ ->]; reflexivity.
Qed.

Lemma X13_double_quoted_tag_witness :
  let field :=
    mkField ["Host"] (Ident "string")
      (Some (String "034" ("env:\" ++ samples.dq ++ "HOST_NAME\" ++ samples.dq
                           ++ samples.dq))) in
  In (Field.mk "Host" "string" "HOST" false false)
     (@getFields samples.library [field]) /\
  "HOST" = @strings.ToUpper samples.library "Host".
Proof.
  apply (@X13_double_quoted_tag samples.library
           [mkField ["Host"] (Ident "string")
              (Some (String "034" ("env:\" ++ samples.dq ++ "HOST_NAME\"
                                   ++ samples.dq ++ samples.dq)))]
           ["Host"] (Ident "string")
           ("env:\" ++ samples.dq ++ "HOST_NAME\" ++ samples.dq ++ samples.dq)
           (Field.mk "Host" "string" "HOST" false false));
    left; reflexivity.
Defined.

(* ================================================================== *)
(** ** The environment tag *)









